(** * GhostType: push-to-talk dictation pipeline

    A shallow embedding of the Python sources

      - [src/services/input_hook.py]  (class [InputHook])
      - [src/services/audio.py]       (class [AudioCapture])
      - [src/core/engine.py]          (class [VoskEngine])
      - [src/core/controller.py]      (class [Controller])
      - [src/config.py]               (method [Config.get])

    together with the properties the design document states about them.

    Python objects are records, methods are computations in a small
    state-and-exception monad [Py] that also collects what the method logs
    and how long it waits.  The libraries the program calls (pynput,
    sounddevice, vosk, json, the file system) are an interface, the class
    [External]; every statement holds for every implementation of it. *)

From Stdlib Require Import ZArith QArith Qminmax String Ascii List Bool Lia Lqa.
From stdpp Require Import base decidable countable gmap sets list strings pretty.

Set Warnings "-register-all,-clear-no-such-hyp".

Local Open Scope string_scope.
Local Open Scope list_scope.
Local Open Scope Z_scope.

(* ===================================================================== *)
(** * Exceptions, log records and the [Py] monad                         *)
(* ===================================================================== *)

(** The exception classes that occur; all of them derive from
    [Exception], so [except Exception] and a bare [except] catch each. *)
Inductive exn_class :=
  | Full | Empty | ValueError | TypeError | AttributeError | KeyError
  | FileNotFoundError | JSONDecodeError | LibraryError.

Record exn := Exn { exn_cls : exn_class; exn_msg : string }.

#[global] Instance exn_class_eq_dec : EqDecision exn_class.
Proof. solve_decision. Defined.

(** What a call into a library gives back: a value or an exception. *)
Inductive result (A : Type) :=
  | Ok (a : A)
  | Err (e : exn).
Arguments Ok {A} a.
Arguments Err {A} e.

Inductive level := DEBUG | INFO | WARNING | ERROR.

#[global] Instance level_eq_dec : EqDecision level.
Proof. solve_decision. Defined.

(** What a computation leaves behind besides its state: the records it
    passes to [logging], and the time it spends suspended in a blocking
    call with a timeout (seconds, as rationals). *)
Inductive event :=
  | Log (lvl : level) (msg : string)
  | Wait (d : Q).

Definition trace := list event.

(** How a call ends: it returns, it raises, or the calling thread stays
    suspended in a blocking call that has no timeout. *)
Inductive outcome (A : Type) :=
  | Return (a : A)
  | Raise (e : exn)
  | Block.
Arguments Return {A} a.
Arguments Raise {A} e.
Arguments Block {A}.

Definition Py (St A : Type) : Type := St -> outcome A * St * trace.

Definition ret {St A} (a : A) : Py St A := fun s => (Return a, s, []).

Definition bind {St A B} (m : Py St A) (k : A -> Py St B) : Py St B :=
  fun s =>
    match m s with
    | (Return a, s1, t1) => let '(o, s2, t2) := k a s1 in (o, s2, t1 ++ t2)
    | (Raise e, s1, t1) => (Raise e, s1, t1)
    | (Block, s1, t1) => (Block, s1, t1)
    end.

Declare Scope py_scope.
Delimit Scope py_scope with py.
Notation "x ← m ; k" := (bind m (fun x => k))
  (at level 20, m at level 100, k at level 200, only parsing) : py_scope.
Notation "m ;; k" := (bind m (fun _ => k))
  (at level 100, k at level 200, only parsing, right associativity) : py_scope.
Local Open Scope py_scope.

Definition raise {St A} (c : exn_class) (msg : string) : Py St A :=
  fun s => (Raise (Exn c msg), s, []).

Definition reraise {St A} (e : exn) : Py St A := fun s => (Raise e, s, []).

Definition block {St A} : Py St A := fun s => (Block, s, []).

Definition gets {St A} (f : St -> A) : Py St A := fun s => (Return (f s), s, []).

Definition modify {St} (f : St -> St) : Py St unit := fun s => (Return tt, f s, []).

Definition logger {St} (lvl : level) (msg : string) : Py St unit :=
  fun s => (Return tt, s, [Log lvl msg]).

Definition wait {St} (d : Q) : Py St unit := fun s => (Return tt, s, [Wait d]).

(** [try: body  except <classes>: handler].  State changes made by the
    body before it raised are kept. *)
Definition try_except {St A} (body : Py St A) (catches : exn -> bool)
    (handler : exn -> Py St A) : Py St A :=
  fun s =>
    match body s with
    | (Raise e, s1, t1) =>
        if catches e
        then let '(o, s2, t2) := handler e s1 in (o, s2, t1 ++ t2)
        else (Raise e, s1, t1)
    | r => r
    end.

(** [except Exception] and the bare [except:]. *)
Definition Exception (e : exn) : bool := true.

(** [except queue.Empty], [except queue.Full]. *)
Definition is_class (c : exn_class) (e : exn) : bool := bool_decide (exn_cls e = c).

(** A library call made from a method. *)
Definition call {St A} (r : result A) : Py St A :=
  fun s => match r with Ok a => (Return a, s, []) | Err e => (Raise e, s, []) end.

(** Run a method of a component that is a field of the current object. *)
Definition zoom {S T A} (get : S -> T) (set : T -> S -> S) (m : Py T A) : Py S A :=
  fun s => let '(o, t1, tr) := m (get s) in (o, set t1 s, tr).

(** Accessors of a finished run. *)
Definition out_of {A St} (r : outcome A * St * trace) : outcome A := r.1.1.
Definition state_of {A St} (r : outcome A * St * trace) : St := r.1.2.
Definition trace_of {A St} (r : outcome A * St * trace) : trace := r.2.

(** A computation keeps an attribute when no run of it changes the
    attribute's value. *)
Definition keeps {St A B} (f : St → B) (m : Py St A) : Prop :=
  ∀ s, f (state_of (m s)) = f s.

Definition is_log (lvl : level) (e : event) : bool :=
  match e with Log l _ => bool_decide (l = lvl) | Wait _ => false end.

(** The WARNING records of a trace, and the time spent waiting in it. *)
Definition warnings (t : trace) : list event := List.filter (is_log WARNING) t.

Definition waited (t : trace) : Q :=
  fold_right (fun e acc => match e with Wait d => (d + acc)%Q | Log _ _ => acc end) 0%Q t.

(* ===================================================================== *)
(** * Strings                                                            *)
(* ===================================================================== *)

(** Strings are sequences of 8-bit characters; the methods below act on
    the ASCII range as Python's do and leave other characters alone. *)

Definition lower_ascii (c : ascii) : ascii :=
  let n := nat_of_ascii c in
  if ((65 <=? n)%nat && (n <=? 90)%nat)%bool then ascii_of_nat (n + 32) else c.

(** [s.lower()] *)
Fixpoint lower (s : string) : string :=
  match s with
  | EmptyString => EmptyString
  | String c s' => String (lower_ascii c) (lower s')
  end.

(** [s.split(sep)] for a one-character separator: never an empty list. *)
Fixpoint split (sep : ascii) (s : string) : list string :=
  match s with
  | EmptyString => [EmptyString]
  | String c s' =>
      if Ascii.eqb c sep then EmptyString :: split sep s'
      else match split sep s' with
           | p :: ps => String c p :: ps
           | [] => [String c EmptyString]
           end
  end.

(** [str.isspace] on one character: tab, newline, vertical tab, form
    feed, carriage return, the four separators 28..31 and the space. *)
Definition is_space (c : ascii) : bool :=
  let n := nat_of_ascii c in
  (((9 <=? n)%nat && (n <=? 13)%nat) || ((28 <=? n)%nat && (n <=? 32)%nat))%bool.

Fixpoint lstrip (s : string) : string :=
  match s with
  | EmptyString => EmptyString
  | String c s' => if is_space c then lstrip s' else s
  end.

Fixpoint rstrip (s : string) : string :=
  match s with
  | EmptyString => EmptyString
  | String c s' =>
      match rstrip s' with
      | EmptyString => if is_space c then EmptyString else String c EmptyString
      | r => String c r
      end
  end.

(** [s.strip()] *)
Definition strip (s : string) : string := rstrip (lstrip s).

(* ===================================================================== *)
(** * Python values                                                      *)
(* ===================================================================== *)

(** The objects [json.load] and [json.loads] build, which is also what
    the configuration holds.  Floating-point numbers are left out. *)
Inductive value :=
  | VNone
  | VBool (b : bool)
  | VInt (z : Z)
  | VStr (s : string)
  | VList (l : list value)
  | VDict (d : list (string * value)).

(** Truth value of an object, as [if text:] tests it. *)
Definition truthy (v : value) : bool :=
  match v with
  | VNone => false
  | VBool b => b
  | VInt z => negb (z =? 0)
  | VStr s => negb (String.eqb s "")
  | VList l => match l with [] => false | _ => true end
  | VDict d => match d with [] => false | _ => true end
  end.

(** Lookup in a dictionary kept as an association list (the keys of a
    parsed document are distinct). *)
Fixpoint assoc (k : string) (d : list (string * value)) : option value :=
  match d with
  | [] => None
  | (k', v) :: d' => if String.eqb k k' then Some v else assoc k d'
  end.

(** [d.get(k, default)]: an object that is no dictionary has no [get]. *)
Definition dict_get (v : value) (k : string) (default : value) : result value :=
  match v with
  | VDict d => Ok (match assoc k d with Some x => x | None => default end)
  | _ => Err (Exn AttributeError "object has no attribute get")
  end.

(** [d[k]] *)
Definition subscript (v : value) (k : string) : result value :=
  match v with
  | VDict d =>
      match assoc k d with
      | Some x => Ok x
      | None => Err (Exn KeyError k)
      end
  | _ => Err (Exn TypeError "object is not subscriptable")
  end.

(** An object used as a number: [bool] is a subclass of [int]. *)
Definition as_int (v : value) : result Z :=
  match v with
  | VInt z => Ok z
  | VBool b => Ok (if b then 1 else 0)
  | _ => Err (Exn TypeError "unsupported operand type")
  end.

Definition bytes := list Byte.byte.

(* ===================================================================== *)
(** * Keys                                                               *)
(* ===================================================================== *)

(** The objects a pynput listener delivers, up to the equality and hash
    that decide membership in a Python set: a member of the enumeration
    [keyboard.Key] by its name, a [KeyCode] that has a character by the
    character and the dead-key flag, any other [KeyCode] by its virtual
    key number. *)
Inductive key :=
  | Key (name : string)
  | KeyCode (char : string) (is_dead : bool)
  | KeyCode_vk (vk : Z).

#[global] Instance key_eq_dec : EqDecision key.
Proof. solve_decision. Defined.

Definition key_encode (k : key) : string + (string * bool) + Z :=
  match k with
  | Key n => inl (inl n)
  | KeyCode c d => inl (inr (c, d))
  | KeyCode_vk v => inr v
  end.

Definition key_decode (x : string + (string * bool) + Z) : key :=
  match x with
  | inl (inl n) => Key n
  | inl (inr (c, d)) => KeyCode c d
  | inr v => KeyCode_vk v
  end.

#[global] Instance key_countable : Countable key.
Proof. by apply (inj_countable' key_encode key_decode); intros []. Defined.

Definition ctrl_l := Key "ctrl_l".
Definition ctrl_r := Key "ctrl_r".
Definition alt_l := Key "alt_l".
Definition alt_r := Key "alt_r".
Definition shift_l := Key "shift_l".
Definition shift_r := Key "shift_r".

(* ===================================================================== *)
(** * The libraries the program calls                                    *)
(* ===================================================================== *)

(** Every operation of a library may raise.  An operation on a decoder
    gives back the decoder's state after the call as well: the call may
    have changed it even when it raised. *)
Class External := {
  (** pynput *)
  from_char : string -> result key;
  Listener : Type;
  Listener_new : result Listener;
  Listener_start : Listener -> result unit;
  Listener_stop : Listener -> result unit;
  (** sounddevice *)
  InputStream : Type;
  query_devices : result value;
  InputStream_new : value -> value -> Z -> result InputStream;
  InputStream_start : InputStream -> result unit;
  InputStream_stop : InputStream -> result unit;
  InputStream_close : InputStream -> result unit;
  (** vosk *)
  Model : Type;
  Decoder : Type;
  Model_new : string -> result Model;
  KaldiRecognizer_new : Model -> value -> result Decoder;
  AcceptWaveform : Decoder -> bytes -> Decoder * result bool;
  Result : Decoder -> Decoder * result string;
  FinalResult : Decoder -> Decoder * result string;
  (** json *)
  json_loads : string -> result value;
  (** sys and pathlib *)
  frozen : bool;
  MEIPASS : string;
  source_root : string;
  joinpath : string -> string -> string;
  exists_ : string -> bool;
  (** the built-in [str] *)
  str : value -> string
}.

(** [for x in xs: acc = body(acc, x)] *)
Fixpoint for_each {St A B} (xs : list A) (body : B -> A -> Py St B) (acc : B) : Py St B :=
  match xs with
  | [] => ret acc
  | x :: xs' => acc' ← body acc x; for_each xs' body acc'
  end.

(** A method called on an attribute that may still be [None]. *)
Definition on_field {S T A} (get : S -> option T) (set : option T -> S -> S)
    (m : Py T A) : Py S A :=
  fun s =>
    match get s with
    | Some t => let '(o, t1, tr) := m t in (o, set (Some t1) s, tr)
    | None => (Raise (Exn AttributeError "NoneType object has no such attribute"), s, [])
    end.

(** [Class(...)]: run the constructor body on the new object. *)
Definition construct {St T} (blank : T) (init : Py T unit) : Py St T :=
  fun s =>
    let '(o, self, tr) := init blank in
    (match o with Return _ => Return self | Raise e => Raise e | Block => Block end, s, tr).

(* ===================================================================== *)
(** * queue.Queue                                                        *)
(* ===================================================================== *)

Module Queue.

Record t (A : Type) := mk {
  maxsize : Z;
  queue : list A;
  unfinished_tasks : Z
}.
Arguments mk {A}.
Arguments maxsize {A}.
Arguments queue {A}.
Arguments unfinished_tasks {A}.

(** [queue.Queue(maxsize=n)] *)
Definition new {A} (n : Z) : t A := mk n [] 0.

Definition qsize {A} (q : t A) : Z := Z.of_nat (length (queue q)).

(** A queue whose [maxsize] is not positive is unbounded. *)
Definition full {A} (q : t A) : bool := (0 <? maxsize q) && (maxsize q <=? qsize q).

(** [q.put(item, block=b)], no timeout: when the queue is full a
    non-blocking call raises [Full] at once and a blocking call suspends
    the caller until a consumer makes room. *)
Definition put {A} (item : A) (block_ : bool) : Py (t A) unit :=
  fun q =>
    if full q then
      if block_ then (Block, q, []) else (Raise (Exn Full ""), q, [])
    else (Return tt, mk (maxsize q) (queue q ++ [item]) (unfinished_tasks q + 1), []).

(** [q.get(timeout=t)] (blocking): a negative timeout is refused; on an
    empty queue the caller waits, for ever without a timeout, and
    otherwise until the timeout has passed, when [Empty] is raised.  The
    call is taken on the queue as it stands: an item that another thread
    puts while the caller waits is a later step of the system. *)
Definition get {A} (timeout : option Q) : Py (t A) A :=
  fun q =>
    match timeout with
    | None =>
        match queue q with
        | [] => (Block, q, [])
        | x :: rest => (Return x, mk (maxsize q) rest (unfinished_tasks q), [])
        end
    | Some tmo =>
        if Qlt_le_dec tmo 0 then
          (Raise (Exn ValueError "'timeout' must be a non-negative number"), q, [])
        else
          match queue q with
          | [] => (Raise (Exn Empty ""), q, [Wait tmo])
          | x :: rest => (Return x, mk (maxsize q) rest (unfinished_tasks q), [])
          end
    end.

(** [q.task_done()] *)
Definition task_done {A} : Py (t A) unit :=
  fun q =>
    let unfinished := unfinished_tasks q - 1 in
    if unfinished <? 0 then
      (Raise (Exn ValueError "task_done() called too many times"), q, [])
    else (Return tt, mk (maxsize q) (queue q) unfinished, []).

End Queue.

(* ===================================================================== *)
(** * services/input_hook.py                                             *)
(* ===================================================================== *)

Module InputHook.
Section InputHook.
Context `{External}.

(** The two callbacks are bound methods of the controller; the handlers
    below take them as arguments instead of reading them from a field. *)
Record t := mk {
  hotkey : value;
  listener : option Listener;
  current_keys : gset key;
  hotkey_keys : gset key
}.

Definition set_listener (l : option Listener) (h : t) : t :=
  mk (hotkey h) l (current_keys h) (hotkey_keys h).
Definition set_current_keys (ks : gset key) (h : t) : t :=
  mk (hotkey h) (listener h) ks (hotkey_keys h).
Definition set_hotkey_keys (ks : gset key) (h : t) : t :=
  mk (hotkey h) (listener h) (current_keys h) ks.

(** One iteration of the loop of [_parse_hotkey]. *)
Definition parse_part {St} (keys : gset key) (part : string) : Py St (gset key) :=
  let part := strip part in
  if String.eqb part "ctrl" then ret ({[ctrl_r]} ∪ ({[ctrl_l]} ∪ keys))
  else if String.eqb part "alt" then ret ({[alt_r]} ∪ ({[alt_l]} ∪ keys))
  else if String.eqb part "shift" then ret ({[shift_r]} ∪ ({[shift_l]} ∪ keys))
  else
    try_except
      (k ← call (from_char part); ret ({[k]} ∪ keys))
      Exception
      (fun _ => logger WARNING ("Unknown key in hotkey: " +:+ part);; ret keys).

Definition _parse_hotkey {St} (hotkey : value) : Py St (gset key) :=
  match hotkey with
  | VStr s => for_each (split "+" (lower s)) parse_part ∅
  | _ => raise AttributeError "object has no attribute lower"
  end.

(** [InputHook(hotkey, on_press, on_release)] *)
Definition __init__ {St} (hotkey : value) : Py St t :=
  construct (mk hotkey None ∅ ∅)
    (keys ← _parse_hotkey hotkey;
     modify (set_hotkey_keys keys);;
     logger INFO ("InputHook initialized with hotkey: " +:+ str hotkey)).

(** The loop returns [True] at the first required key that is pressed. *)
Definition _is_hotkey_pressed (h : t) : bool :=
  existsb (fun required_key => bool_decide (required_key ∈ current_keys h))
          (elements (hotkey_keys h)).

(** The callback runs on the world [W] it belongs to. *)
Definition run_callback {W} (cb : Py W unit) : Py (t * W) unit :=
  zoom snd (fun w s => (s.1, w)) cb.

Definition _on_press {W} (on_press_callback : Py W unit) (k : key) : Py (t * W) unit :=
  modify (fun s => (set_current_keys ({[k]} ∪ current_keys s.1) s.1, s.2));;
  pressed ← gets (fun s => _is_hotkey_pressed s.1);
  if pressed then
    try_except (run_callback on_press_callback) Exception
      (fun e => logger ERROR ("Error in press callback: " +:+ exn_msg e))
  else ret tt.

Definition _on_release {W} (on_release_callback : Py W unit) (k : key) : Py (t * W) unit :=
  was_active ← gets (fun s => _is_hotkey_pressed s.1);
  held ← gets (fun s => bool_decide (k ∈ current_keys s.1));
  (if held
   then modify (fun s => (set_current_keys (current_keys s.1 ∖ {[k]}) s.1, s.2))
   else ret tt);;
  pressed ← gets (fun s => _is_hotkey_pressed s.1);
  if was_active && negb pressed then
    try_except (run_callback on_release_callback) Exception
      (fun e => logger ERROR ("Error in release callback: " +:+ exn_msg e))
  else ret tt.

Definition start : Py t unit :=
  l ← gets listener;
  match l with
  | Some _ => logger WARNING "Listener already running"
  | None =>
      try_except
        (l ← call Listener_new;
         modify (set_listener (Some l));;
         call (Listener_start l);;
         logger INFO "Input hook started")
        Exception
        (fun e => logger ERROR ("Failed to start input hook: " +:+ exn_msg e);; reraise e)
  end.

Definition stop : Py t unit :=
  l ← gets listener;
  match l with
  | None => logger WARNING "No listener to stop"
  | Some l =>
      try_except
        (call (Listener_stop l);;
         modify (set_listener None);;
         modify (set_current_keys ∅);;
         logger INFO "Input hook stopped")
        Exception
        (fun e => logger ERROR ("Error stopping input hook: " +:+ exn_msg e))
  end.

End InputHook.
End InputHook.

(* ===================================================================== *)
(** * services/audio.py                                                  *)
(* ===================================================================== *)

Module AudioCapture.
Section AudioCapture.
Context `{External}.

(** [audio_queue] is the controller's queue object itself, not a copy:
    the methods that use it run on the pair of this record and the
    queue. *)
Record t := mk {
  sample_rate : value;
  channels : value;
  chunk_duration_ms : value;
  blocksize : Z;
  stream : option InputStream;
  is_recording : bool
}.

Definition set_stream (st : option InputStream) (a : t) : t :=
  mk (sample_rate a) (channels a) (chunk_duration_ms a) (blocksize a) st (is_recording a).
Definition set_is_recording (b : bool) (a : t) : t :=
  mk (sample_rate a) (channels a) (chunk_duration_ms a) (blocksize a) (stream a) b.

(** [AudioCapture(audio_queue, sample_rate, channels, chunk_duration_ms)];
    [int(sample_rate * chunk_duration_ms / 1000)] truncates towards
    zero. *)
Definition __init__ {St} (sample_rate channels chunk_duration_ms : value) : Py St t :=
  sr ← call (as_int sample_rate);
  ms ← call (as_int chunk_duration_ms);
  logger INFO ("AudioCapture initialized: " +:+ str sample_rate +:+ "Hz, "
               +:+ str channels +:+ "ch, " +:+ str chunk_duration_ms +:+ "ms chunks");;
  ret (mk sample_rate channels chunk_duration_ms (Z.quot (sr * ms) 1000) None false).

(** [_audio_callback(indata, frames, time, status)]: [status] is [None]
    when no flag is set and otherwise carries the printed flags;
    [bytes(indata)] is the content of the buffer. *)
Definition _audio_callback (indata : bytes) (frames : Z) (time : Q)
    (status : option string) : Py (t * Queue.t bytes) unit :=
  (match status with
   | Some flags => logger WARNING ("Audio stream status: " +:+ flags)
   | None => ret tt
   end);;
  recording ← gets (fun s => is_recording s.1);
  if recording then
    let audio_bytes := indata in
    try_except
      (zoom snd (fun q s => (s.1, q)) (Queue.put audio_bytes false))
      (is_class Full)
      (fun _ => logger WARNING "Audio queue full, dropping chunk")
  else ret tt.

Definition start : Py t unit :=
  st ← gets stream;
  match st with
  | Some _ => logger WARNING "Audio stream already running"
  | None =>
      try_except
        (device_info ← call query_devices;
         name ← call (subscript device_info "name");
         logger INFO ("Using audio device: " +:+ str name);;
         sr ← gets sample_rate;
         ch ← gets channels;
         bs ← gets blocksize;
         st ← call (InputStream_new sr ch bs);
         modify (set_stream (Some st));;
         call (InputStream_start st);;
         modify (set_is_recording true);;
         logger INFO "Audio recording started")
        Exception
        (fun e => logger ERROR ("Failed to start audio recording: " +:+ exn_msg e);;
                  reraise e)
  end.

Definition stop : Py t unit :=
  st ← gets stream;
  match st with
  | None => logger WARNING "No audio stream to stop"
  | Some st =>
      try_except
        (modify (set_is_recording false);;
         call (InputStream_stop st);;
         call (InputStream_close st);;
         modify (set_stream None);;
         logger INFO "Audio recording stopped")
        Exception
        (fun e => logger ERROR ("Error stopping audio: " +:+ exn_msg e))
  end.

End AudioCapture.
End AudioCapture.

(* ===================================================================== *)
(** * core/engine.py                                                     *)
(* ===================================================================== *)

Module VoskEngine.
Section VoskEngine.
Context `{External}.

(** A [KaldiRecognizer] object: the state of its decoder, and a number
    that tells one object from another ([allocated] counts the
    recognizers the engine has built so far). *)
Record KaldiRecognizer := mkRec {
  rec_id : nat;
  decoder : Decoder
}.

Record t := mk {
  model_path : string;
  sample_rate : value;
  model : option Model;
  recognizer : option KaldiRecognizer;
  allocated : nat
}.

Definition set_model (m : option Model) (e : t) : t :=
  mk (model_path e) (sample_rate e) m (recognizer e) (allocated e).
Definition set_recognizer (r : option KaldiRecognizer) (e : t) : t :=
  mk (model_path e) (sample_rate e) (model e) r (allocated e).

(** [self.recognizer = KaldiRecognizer(self.model, self.sample_rate)] *)
Definition new_recognizer : Py t unit :=
  m ← gets model;
  sr ← gets sample_rate;
  d ← match m with
      | Some m => call (KaldiRecognizer_new m sr)
      | None => raise TypeError "KaldiRecognizer: no model"
      end;
  modify (fun e => mk (model_path e) (sample_rate e) (model e)
                      (Some (mkRec (allocated e) d)) (S (allocated e))).

(** A method of [self.recognizer]: it acts on the decoder of the object
    the attribute refers to. *)
Definition recognizer_call {A} (method : Decoder -> Decoder * result A) : Py t A :=
  fun e =>
    match recognizer e with
    | Some r =>
        let '(d, res) := method (decoder r) in
        (match res with Ok a => Return a | Err x => Raise x end,
         set_recognizer (Some (mkRec (rec_id r) d)) e, [])
    | None => (Raise (Exn AttributeError "NoneType object has no such attribute"), e, [])
    end.

Definition _resolve_model_path {St} (model_path : value) : Py St string :=
  match model_path with
  | VStr p =>
      let base_path := if frozen then MEIPASS else source_root in
      let full_path := joinpath base_path p in
      if exists_ full_path then ret full_path
      else
        let full_path := p in
        if exists_ full_path then ret full_path
        else
          logger ERROR ("Vosk model not found at: " +:+ p);;
          logger ERROR ("Searched in: " +:+ joinpath base_path p +:+ " and " +:+ p);;
          raise FileNotFoundError ("Vosk model not found: " +:+ p)
  | _ => raise TypeError "unsupported operand type for /"
  end.

Definition required_files : list string :=
  ["am/final.mdl"; "graph/HCLR.fst"; "conf/model.conf"].

Definition _load_model : Py t unit :=
  try_except
    (path ← gets model_path;
     logger INFO ("Loading Vosk model from: " +:+ path);;
     for_each required_files
       (fun _ file =>
          if exists_ (joinpath path file) then ret tt
          else raise FileNotFoundError ("Missing model file: " +:+ file)) tt;;
     m ← call (Model_new path);
     modify (set_model (Some m));;
     new_recognizer;;
     logger INFO "Vosk model loaded successfully")
    Exception
    (fun e => logger ERROR ("Failed to load Vosk model: " +:+ exn_msg e);; reraise e).

(** [VoskEngine(model_path, sample_rate)] *)
Definition __init__ {St} (model_path sample_rate : value) : Py St t :=
  path ← _resolve_model_path model_path;
  construct (mk path sample_rate None None 0) _load_model.

Definition process_audio (audio_bytes : bytes) : Py t value :=
  r ← gets recognizer;
  match r with
  | None => logger ERROR "Recognizer not initialized";; ret (VStr "")
  | Some _ =>
      try_except
        (final ← recognizer_call (fun d => AcceptWaveform d audio_bytes);
         if final then
           doc ← recognizer_call Result;
           result ← call (json_loads doc);
           text ← call (dict_get result "text" (VStr ""));
           (if truthy text then logger DEBUG ("Transcribed: " +:+ str text) else ret tt);;
           ret text
         else ret (VStr ""))
        Exception
        (fun e => logger ERROR ("Error processing audio: " +:+ exn_msg e);; ret (VStr ""))
  end.

Definition finalize : Py t value :=
  r ← gets recognizer;
  match r with
  | None => ret (VStr "")
  | Some _ =>
      try_except
        (doc ← recognizer_call FinalResult;
         result ← call (json_loads doc);
         text ← call (dict_get result "text" (VStr ""));
         new_recognizer;;
         ret text)
        Exception
        (fun e => logger ERROR ("Error finalizing: " +:+ exn_msg e);; ret (VStr ""))
  end.

End VoskEngine.
End VoskEngine.

(* ===================================================================== *)
(** * config.py                                                          *)
(* ===================================================================== *)

Module Config.

(** The loop of [Config.get] over the parts of the dotted key. *)
Fixpoint walk (keys : list string) (v default : value) : value :=
  match keys with
  | [] => v
  | k :: keys' =>
      match v with
      | VDict d =>
          match assoc k d with
          | None | Some VNone => default
          | Some v' => walk keys' v' default
          end
      | _ => default
      end
  end.

(** [config.get(key, default)] on the loaded dictionary [_config]. *)
Definition get (_config : value) (key : string) (default : value) : value :=
  walk (split "." key) _config default.

(** [d[k] = v] on a dictionary: the entry is replaced where it stands, a
    new one goes to the end. *)
Fixpoint store (k : string) (v : value) (d : list (string * value))
    : list (string * value) :=
  match d with
  | [] => [(k, v)]
  | (k', v') :: d' =>
      if String.eqb k k' then (k, v) :: d' else (k', v') :: store k v d'
  end.

(** The loop of [Config.set] over [keys[:-1]] and the final assignment,
    for the keys [k :: rest].  A missing dictionary is created on the
    way; testing or assigning through an object that is no dictionary
    raises [TypeError], which can only happen before anything has been
    created. *)
Fixpoint assign (k : string) (rest : list string) (v : value) (cfg : value)
    : result value :=
  match cfg with
  | VDict d =>
      match rest with
      | [] => Ok (VDict (store k v d))
      | k' :: rest' =>
          let child := match assoc k d with Some c => c | None => VDict [] end in
          match assign k' rest' v child with
          | Ok child' => Ok (VDict (store k child' d))
          | Err e => Err e
          end
      end
  | _ => Err (Exn TypeError "object does not support item assignment")
  end.

(** [config.set(key, value)]: the dictionary [_config] afterwards.  The
    split of a string is never empty. *)
Definition set (_config : value) (key : string) (v : value) : result value :=
  match split "." key with
  | k :: rest => assign k rest v _config
  | [] => Ok _config
  end.

(** [_get_defaults()] *)
Definition _get_defaults : value :=
  VDict [("version", VStr "0.1.0");
         ("hotkeys", VDict [("ptt", VStr "ctrl+alt")]);
         ("audio", VDict [("device", VStr "default");
                          ("sample_rate", VInt 16000);
                          ("channels", VInt 1);
                          ("chunk_duration_ms", VInt 100)]);
         ("speech", VDict [("model_path", VStr "./models/vosk-model-small-en-us-0.15");
                           ("language", VStr "en-us")]);
         ("system", VDict [("log_level", VStr "INFO");
                           ("log_file", VStr "ghosttype.log")])].

End Config.

(* ===================================================================== *)
(** * core/controller.py                                                 *)
(* ===================================================================== *)

Module Thread.

(** A [threading.Thread] as the controller sees it. *)
Record t := mk { alive : bool }.

(** [thread.join(timeout=tmo)]: [exit_after] is the time the thread
    still needs before its target returns, [None] when it never does. *)
Definition join (tmo : Q) (exit_after : option Q) : Py t unit :=
  match exit_after with
  | Some d =>
      if Qle_bool d tmo then wait d;; modify (fun _ => mk false)
      else wait tmo
  | None => wait tmo
  end.

End Thread.

Module Controller.
Section Controller.
Context `{External}.

Record t := mk {
  config : value;
  audio_queue : Queue.t bytes;
  text_queue : Queue.t value;
  audio_service : option AudioCapture.t;
  engine : option VoskEngine.t;
  input_hook : option InputHook.t;
  worker_thread : option Thread.t;
  stop_event : bool;
  is_recording : bool
}.

Definition set_audio_queue (q : Queue.t bytes) (c : t) : t :=
  mk (config c) q (text_queue c) (audio_service c) (engine c) (input_hook c)
     (worker_thread c) (stop_event c) (is_recording c).
Definition set_text_queue (q : Queue.t value) (c : t) : t :=
  mk (config c) (audio_queue c) q (audio_service c) (engine c) (input_hook c)
     (worker_thread c) (stop_event c) (is_recording c).
Definition set_audio_service (a : option AudioCapture.t) (c : t) : t :=
  mk (config c) (audio_queue c) (text_queue c) a (engine c) (input_hook c)
     (worker_thread c) (stop_event c) (is_recording c).
Definition set_engine (e : option VoskEngine.t) (c : t) : t :=
  mk (config c) (audio_queue c) (text_queue c) (audio_service c) e (input_hook c)
     (worker_thread c) (stop_event c) (is_recording c).
Definition set_input_hook (h : option InputHook.t) (c : t) : t :=
  mk (config c) (audio_queue c) (text_queue c) (audio_service c) (engine c) h
     (worker_thread c) (stop_event c) (is_recording c).
Definition set_worker_thread (w : option Thread.t) (c : t) : t :=
  mk (config c) (audio_queue c) (text_queue c) (audio_service c) (engine c) (input_hook c)
     w (stop_event c) (is_recording c).
Definition set_stop_event (b : bool) (c : t) : t :=
  mk (config c) (audio_queue c) (text_queue c) (audio_service c) (engine c) (input_hook c)
     (worker_thread c) b (is_recording c).
Definition set_is_recording (b : bool) (c : t) : t :=
  mk (config c) (audio_queue c) (text_queue c) (audio_service c) (engine c) (input_hook c)
     (worker_thread c) (stop_event c) b.

Definition _initialize_components : Py t unit :=
  try_except
    (cfg ← gets config;
     a ← AudioCapture.__init__
            (Config.get cfg "audio.sample_rate" (VInt 16000))
            (Config.get cfg "audio.channels" (VInt 1))
            (Config.get cfg "audio.chunk_duration_ms" (VInt 100));
     modify (set_audio_service (Some a));;
     let model_path :=
       Config.get cfg "speech.model_path" (VStr "./models/vosk-model-small-en-us-0.15") in
     e ← VoskEngine.__init__ model_path (Config.get cfg "audio.sample_rate" (VInt 16000));
     modify (set_engine (Some e));;
     let hotkey := Config.get cfg "hotkeys.ptt" (VStr "ctrl+alt") in
     h ← InputHook.__init__ hotkey;
     modify (set_input_hook (Some h));;
     logger INFO "All components initialized successfully")
    Exception
    (fun e => logger ERROR ("Failed to initialize components: " +:+ exn_msg e);; reraise e).

(** [Controller()], with the dictionary the [Config] singleton loaded. *)
Definition __init__ {St} (cfg : value) : Py St t :=
  construct (mk cfg (Queue.new 1000) (Queue.new 100) None None None None false false)
    _initialize_components.

Definition _on_hotkey_press : Py t unit :=
  recording ← gets is_recording;
  if negb recording then
    logger INFO "[Recording started]";;
    modify (set_is_recording true);;
    on_field audio_service set_audio_service AudioCapture.start
  else ret tt.

Definition _on_hotkey_release : Py t unit :=
  recording ← gets is_recording;
  if recording then
    logger INFO "[Recording stopped]";;
    modify (set_is_recording false);;
    on_field audio_service set_audio_service AudioCapture.stop;;
    final_text ← on_field engine set_engine VoskEngine.finalize;
    if truthy final_text
    then zoom text_queue set_text_queue (Queue.put final_text true)
    else ret tt
  else ret tt.

(** The body of the [while] loop of [_worker_loop]. *)
Definition worker_iteration : Py t unit :=
  try_except
    (audio_chunk ← zoom audio_queue set_audio_queue (Queue.get (Some (1 # 10)%Q));
     text ← on_field engine set_engine (VoskEngine.process_audio audio_chunk);
     (if truthy text
      then zoom text_queue set_text_queue (Queue.put text true)
      else ret tt);;
     zoom audio_queue set_audio_queue Queue.task_done)
    Exception
    (fun e => if is_class Empty e then ret tt
              else logger ERROR ("Error in worker thread: " +:+ exn_msg e)).

(** [while not self.stop_event.is_set(): ...], for at most [fuel] tests
    of the flag; a thread that has used them all is still running. *)
Fixpoint worker_while (fuel : nat) : Py t unit :=
  match fuel with
  | O => block
  | S fuel' =>
      stop ← gets stop_event;
      if stop then ret tt else worker_iteration;; worker_while fuel'
  end.

Definition _worker_loop (fuel : nat) : Py t unit :=
  logger INFO "Worker thread started";;
  worker_while fuel;;
  logger INFO "Worker thread stopped".

Definition start : Py t unit :=
  logger INFO "Starting GhostType controller...";;
  modify (set_worker_thread (Some (Thread.mk true)));;
  on_field input_hook set_input_hook InputHook.start;;
  logger INFO "Controller started successfully";;
  cfg ← gets config;
  logger INFO ("Press " +:+ str (Config.get cfg "hotkeys.ptt" VNone) +:+ " to start dictating").

(** [stop()]; [worker_exit] is the time the worker thread needs to leave
    [_worker_loop] once the stop event is set, [None] when it never
    does. *)
Definition stop (worker_exit : option Q) : Py t unit :=
  logger INFO "Stopping GhostType controller...";;
  recording ← gets is_recording;
  (if recording then on_field audio_service set_audio_service AudioCapture.stop else ret tt);;
  h ← gets input_hook;
  (match h with
   | Some _ => on_field input_hook set_input_hook InputHook.stop
   | None => ret tt
   end);;
  modify (set_stop_event true);;
  w ← gets worker_thread;
  (match w with
   | Some th =>
       if Thread.alive th
       then on_field worker_thread set_worker_thread (Thread.join (5 # 1)%Q worker_exit)
       else ret tt
   | None => ret tt
   end);;
  logger INFO "Controller stopped".


(** ** The callbacks the libraries invoke *)

(** The listener thread delivers a key event to the hook, whose
    callbacks are the controller's two methods. *)
Definition with_hook {A} (m : Py (InputHook.t * t) A) : Py t A :=
  fun c =>
    match input_hook c with
    | Some h =>
        let '(o, s, tr) := m (h, c) in (o, set_input_hook (Some s.1) s.2, tr)
    | None => (Raise (Exn AttributeError "NoneType object has no such attribute"), c, [])
    end.

Definition key_down (k : key) : Py t unit :=
  with_hook (InputHook._on_press _on_hotkey_press k).

Definition key_up (k : key) : Py t unit :=
  with_hook (InputHook._on_release _on_hotkey_release k).

(** The capture stream delivers a block to the audio service, which
    shares [audio_queue] with the controller. *)
Definition audio_block (indata : bytes) (status : option string) : Py t unit :=
  fun c =>
    match audio_service c with
    | Some a =>
        let '(o, s, tr) :=
          AudioCapture._audio_callback indata (Z.of_nat (length indata)) 0%Q status
            (a, audio_queue c) in
        (o, set_audio_queue s.2 (set_audio_service (Some s.1) c), tr)
    | None => (Raise (Exn AttributeError "NoneType object has no such attribute"), c, [])
    end.

End Controller.
End Controller.

(* ===================================================================== *)
(** * The design document's chord                                        *)
(* ===================================================================== *)

Module Spec.

(** The document's words: a chord is an ordered collection of
    key-groups, each a set of keys considered equivalent; it is satisfied
    iff every key-group has at least one member currently pressed. *)
Definition chord := list (gset key).

Definition group_pressed (pressed group : gset key) : bool :=
  existsb (fun k => bool_decide (k ∈ pressed)) (elements group).

Definition satisfied (c : chord) (pressed : gset key) : bool :=
  forallb (group_pressed pressed) c.

(** The chord of the document's examples, [ctrl+alt]. *)
Definition ctrl_alt : chord := [ {[ctrl_l; ctrl_r]}; {[alt_l; alt_r]} ].

End Spec.

(* ===================================================================== *)
(** * Notions the statements use                                         *)
(* ===================================================================== *)

Module Scenario.
Section Scenario.
Context `{External}.


(** The capture stream delivers the blocks one after the other, each
    with its status flags, and nothing takes from the queue. *)
Definition deliver (blocks : list (bytes * option string))
    : Py (AudioCapture.t * Queue.t bytes) unit :=
  for_each blocks
    (fun _ b => AudioCapture._audio_callback b.1 (Z.of_nat (length b.1)) 0%Q b.2) tt.

(** The drop events of a trace. *)
Definition is_drop (e : event) : bool :=
  match e with
  | Log WARNING msg => String.eqb msg "Audio queue full, dropping chunk"
  | _ => false
  end.

Definition drops (t : trace) : nat := length (List.filter is_drop t).

(** How long [join(timeout=5)] waits for a thread that needs
    [exit_after] to return. *)
Definition join_wait (exit_after : option Q) : Q :=
  match exit_after with
  | Some d => if Qle_bool d (5 # 1) then d else (5 # 1)%Q
  | None => (5 # 1)%Q
  end.

(** What [stop()] has logged when it reaches the join: its first
    message, then what stopping the capture (if a session is active) and
    stopping the hook (if there is one) log. *)
Definition stop_prefix (recording : bool) (a : AudioCapture.t)
    (h : option InputHook.t) : trace :=
  [Log INFO "Stopping GhostType controller..."]
  ++ (if recording then trace_of (AudioCapture.stop a) else [])
  ++ match h with Some h => trace_of (InputHook.stop h) | None => [] end.

(** Whether the thread has returned when [join(timeout=5)] does. *)
Definition joined (exit_after : option Q) : bool :=
  match exit_after with
  | Some d => Qle_bool d (5 # 1)
  | None => false
  end.

(** The consumer's dequeue timeout and the grace period of the join. *)
Definition poll_interval : Q := (1 # 10)%Q.
Definition grace_period : Q := (5 # 1)%Q.

(** The keys one token of a chord string stands for: both control keys
    for [ctrl], both alt keys for [alt], both shift keys for [shift], the
    key of the character otherwise, and none when the key library
    refuses the token. *)
Definition token_keys (part : string) : gset key :=
  let part := strip part in
  if String.eqb part "ctrl" then {[ctrl_l; ctrl_r]}
  else if String.eqb part "alt" then {[alt_l; alt_r]}
  else if String.eqb part "shift" then {[shift_l; shift_r]}
  else match from_char part with
       | Ok k => {[k]}
       | Err _ => ∅
       end.

End Scenario.
End Scenario.

(* ===================================================================== *)
(** * A small implementation of the libraries                            *)
(* ===================================================================== *)

(** Used to run the program on concrete events.  Its decoder keeps the
    transcript of the audio it has accepted: a block stands for the text
    its bytes spell, the empty block ends an utterance, a block [0xff]
    cannot be decoded, and a transcript that starts with a question mark
    cannot be flushed.  Its key library knows one-character keys only. *)
Module Toy.

Definition text_of (b : bytes) : string :=
  string_of_list_ascii (map ascii_of_byte b).

Definition starts_with_qmark (s : string) : bool :=
  match s with
  | String c _ => Ascii.eqb c "?"
  | EmptyString => false
  end.

Definition accept (d : string) (b : bytes) : string * result bool :=
  match b with
  | [] => (d, Ok true)
  | [Byte.xff] => (d, Err (Exn LibraryError "bad block"))
  | _ => (d +:+ text_of b, Ok false)
  end.

Definition flush (d : string) : string * result string :=
  if starts_with_qmark d then (d, Err (Exn LibraryError "cannot flush"))
  else ("", Ok d).

Definition loads (doc : string) : result value :=
  if String.eqb doc "{" then Err (Exn JSONDecodeError "Expecting property name")
  else Ok (VDict [("text", VStr doc)]).

Definition key_of_char (s : string) : result key :=
  if (String.length s =? 1)%nat then Ok (KeyCode s false)
  else Err (Exn ValueError "not a character").

Definition show (v : value) : string :=
  match v with
  | VStr s => s
  | VInt z => pretty z
  | _ => "object"
  end.

#[local] Instance env : External := {|
  from_char := key_of_char;
  Listener := unit;
  Listener_new := Ok tt;
  Listener_start := fun _ => Ok tt;
  Listener_stop := fun _ => Ok tt;
  InputStream := unit;
  query_devices := Ok (VDict [("name", VStr "mic")]);
  InputStream_new := fun _ _ _ => Ok tt;
  InputStream_start := fun _ => Ok tt;
  InputStream_stop := fun _ => Ok tt;
  InputStream_close := fun _ => Ok tt;
  Model := unit;
  Decoder := string;
  Model_new := fun _ => Ok tt;
  KaldiRecognizer_new := fun _ _ => Ok "";
  AcceptWaveform := accept;
  Result := fun d => ("", Ok d);
  FinalResult := flush;
  json_loads := loads;
  frozen := false;
  MEIPASS := "";
  source_root := "/opt/ghosttype";
  joinpath := fun a b => a +:+ "/" +:+ b;
  exists_ := fun _ => true;
  str := show
|}.

(** The same libraries with a listener and a capture stream that can be
    created but neither started nor stopped. *)
Definition faulty : External := {|
  from_char := key_of_char;
  Listener := unit;
  Listener_new := Ok tt;
  Listener_start := fun _ => Err (Exn LibraryError "no display");
  Listener_stop := fun _ => Err (Exn LibraryError "no display");
  InputStream := unit;
  query_devices := Ok (VDict [("name", VStr "mic")]);
  InputStream_new := fun _ _ _ => Ok tt;
  InputStream_start := fun _ => Err (Exn LibraryError "device busy");
  InputStream_stop := fun _ => Err (Exn LibraryError "device busy");
  InputStream_close := fun _ => Ok tt;
  Model := unit;
  Decoder := string;
  Model_new := fun _ => Ok tt;
  KaldiRecognizer_new := fun _ _ => Ok "";
  AcceptWaveform := accept;
  Result := fun d => ("", Ok d);
  FinalResult := flush;
  json_loads := loads;
  frozen := false;
  MEIPASS := "";
  source_root := "/opt/ghosttype";
  joinpath := fun a b => a +:+ "/" +:+ b;
  exists_ := fun _ => true;
  str := show
|}.

(** Run a list of steps one after the other. *)
Definition steps {St} (ms : list (Py St unit)) : Py St unit :=
  for_each ms (fun _ m => m) tt.

(** A hook with the controller's callbacks replaced by counters of
    their invocations: the world is the pair (presses, releases). *)
Definition count_press : Py (nat * nat) unit := modify (fun w => (S w.1, w.2)).
Definition count_release : Py (nat * nat) unit := modify (fun w => (w.1, S w.2)).

Definition down (k : key) : Py (InputHook.t * (nat * nat)) unit :=
  InputHook._on_press count_press k.
Definition up (k : key) : Py (InputHook.t * (nat * nat)) unit :=
  InputHook._on_release count_release k.

(** The hook for the chord string [ctrl+alt], as the constructor builds
    it (or a hook without keys, should the constructor raise). *)
Definition hook (hotkey : string) : InputHook.t :=
  match out_of (InputHook.__init__ (VStr hotkey) tt) with
  | Return h => h
  | _ => InputHook.mk VNone None ∅ ∅
  end.

(** The controller for a configuration with the given chord string, after
    [start()]. *)
Definition config (hotkey : string) : value :=
  VDict [("hotkeys", VDict [("ptt", VStr hotkey)])].

Definition blank : Controller.t :=
  Controller.mk VNone (Queue.new 1000) (Queue.new 100) None None None None false false.

Definition started (hotkey : string) : Controller.t :=
  match Controller.__init__ (config hotkey) tt with
  | (Return c, _, _) => state_of (Controller.start c)
  | _ => blank
  end.

Definition frame (s : string) : bytes := map byte_of_ascii (list_ascii_of_string s).

(** The audio service of a controller that has not recorded yet. *)
Definition capturing_off : AudioCapture.t :=
  AudioCapture.mk (VInt 16000) (VInt 1) (VInt 100) 1600 None false.

(** An audio service that is capturing. *)
Definition capturing : AudioCapture.t :=
  AudioCapture.mk (VInt 16000) (VInt 1) (VInt 100) 1600 (Some tt) true.

(** An engine whose recognizer, the first it built, holds the given
    transcript. *)
Definition recognizer (id : nat) (transcript : string) : VoskEngine.KaldiRecognizer :=
  VoskEngine.mkRec id transcript.

Definition engine (transcript : string) : VoskEngine.t :=
  VoskEngine.mk "/opt/ghosttype/model" (VInt 16000) (Some tt)
    (Some (recognizer 0 transcript)) 1.

End Toy.

(* ===================================================================== *)
(** * Chord detection                                                    *)
(* ===================================================================== *)

Section ChordDetector.
Context `{External}.

(** What the loop of [_is_hotkey_pressed] decides: some required key is
    among the pressed ones. *)
Lemma is_hotkey_pressed_any (h : InputHook.t) :
  InputHook._is_hotkey_pressed h = true ↔
  ∃ k, k ∈ InputHook.hotkey_keys h ∧ k ∈ InputHook.current_keys h.
Proof.
  unfold InputHook._is_hotkey_pressed. rewrite existsb_exists. split.
  - intros (k & Hin & Hk). exists k. split.
    + apply elem_of_elements, list_elem_of_In, Hin.
    + by apply bool_decide_eq_true in Hk.
  - intros (k & Hreq & Hcur). exists k. split.
    + apply list_elem_of_In, elem_of_elements, Hreq.
    + by apply bool_decide_eq_true.
Qed.

(** The document's chord, in the same terms. *)
Lemma spec_satisfied_all (c : Spec.chord) (pressed : gset key) :
  Spec.satisfied c pressed = true ↔
  ∀ g, g ∈ c → ∃ k, k ∈ g ∧ k ∈ pressed.
Proof.
  unfold Spec.satisfied, Spec.group_pressed. rewrite forallb_forall. split.
  - intros Hall g Hg. apply list_elem_of_In, Hall, existsb_exists in Hg.
    destruct Hg as (k & Hin & Hk). exists k. split.
    + apply elem_of_elements, list_elem_of_In, Hin.
    + by apply bool_decide_eq_true in Hk.
  - intros Hall g Hg. apply list_elem_of_In, Hall in Hg.
    destruct Hg as (k & Hin & Hk). apply existsb_exists. exists k. split.
    + apply list_elem_of_In, elem_of_elements, Hin.
    + by apply bool_decide_eq_true.
Qed.



End ChordDetector.

(** C1.  The chord the constructor builds for the string [ctrl+alt] is
    the flat set of the four keys, and [_is_hotkey_pressed] finds it
    pressed when only the left control key is held; the chord of the
    design document, satisfied iff every key-group has a member
    pressed, is not satisfied by that key alone. *)
Theorem ctrl_alone_satisfies_ctrl_alt `{External} :
  ∃ h : InputHook.t,
    out_of (InputHook.__init__ (VStr "ctrl+alt") tt) = Return h ∧
    InputHook.hotkey_keys h = {[ctrl_l; ctrl_r; alt_l; alt_r]} ∧
    InputHook._is_hotkey_pressed (InputHook.set_current_keys {[ctrl_l]} h) = true ∧
    Spec.satisfied Spec.ctrl_alt {[ctrl_l]} = false.
Proof.
  eexists. split; [vm_compute; reflexivity|].
  split; [vm_compute; reflexivity|].
  split; vm_compute; reflexivity.
Qed.

(** C2.  With the chord [ctrl], pressing the left control key invokes
    the press callback, and pressing the right one while the left is
    still held, the chord being satisfied already, invokes it again; in
    the document's scenario for [ctrl+alt] the three key presses invoke
    it three times. *)
Theorem press_callback_repeats_while_held :
  (state_of (Toy.steps [Toy.down ctrl_l] (Toy.hook "ctrl", (0, 0)%nat))).2
    = (1, 0)%nat ∧
  Spec.satisfied [ {[ctrl_l; ctrl_r]} ] {[ctrl_l]} = true ∧
  (state_of (Toy.steps [Toy.down ctrl_l; Toy.down ctrl_r]
               (Toy.hook "ctrl", (0, 0)%nat))).2
    = (2, 0)%nat ∧
  (state_of (Toy.steps [Toy.down ctrl_l; Toy.down alt_l; Toy.down ctrl_r]
               (Toy.hook "ctrl+alt", (0, 0)%nat))).2
    = (3, 0)%nat.
Proof. repeat split; vm_compute; reflexivity. Qed.

(** C3.  In the document's scenario for [ctrl+alt] (left control, left
    alt and right control pressed, then left control released) the
    release of the right control key, which leaves only the left alt key
    held and so desatisfies the document's chord, invokes no release
    callback; the callback is invoked once, when the left alt key is
    released as well. *)
Theorem release_callback_waits_for_last_key :
  let pressed := [Toy.down ctrl_l; Toy.down alt_l; Toy.down ctrl_r] in
  (state_of (Toy.steps (pressed ++ [Toy.up ctrl_l; Toy.up ctrl_r])
               (Toy.hook "ctrl+alt", (0, 0)%nat))).2.2
    = 0%nat ∧
  Spec.satisfied Spec.ctrl_alt {[ctrl_r; alt_l]} = true ∧
  Spec.satisfied Spec.ctrl_alt {[alt_l]} = false ∧
  (state_of (Toy.steps (pressed ++ [Toy.up ctrl_l; Toy.up ctrl_r; Toy.up alt_l])
               (Toy.hook "ctrl+alt", (0, 0)%nat))).2.2
    = 1%nat.
Proof. repeat split; vm_compute; reflexivity. Qed.

(* ===================================================================== *)
(** * The recognition engine                                             *)
(* ===================================================================== *)

Section Engine.
Context `{External}.

(** C9.  [process_audio] returns for every block and every engine state,
    and never raises: the empty string when there is no recognizer, when
    the block gives no final result, or when the recognition step raises;
    the text of the result when the engine reports a final one. *)
Theorem process_audio_total (e : VoskEngine.t) (audio_bytes : bytes) :
  ∃ v e1 tr,
    VoskEngine.process_audio audio_bytes e = (Return v, e1, tr) ∧
    (VoskEngine.recognizer e = None → v = VStr "" ∧ e1 = e) ∧
    (∀ r, VoskEngine.recognizer e = Some r →
       match AcceptWaveform (VoskEngine.decoder r) audio_bytes with
       | (_, Ok false) => v = VStr ""
       | (_, Err _) => v = VStr ""
       | (d1, Ok true) =>
           match Result d1 with
           | (_, Err _) => v = VStr ""
           | (_, Ok doc) =>
               match json_loads doc with
               | Err _ => v = VStr ""
               | Ok res =>
                   match dict_get res "text" (VStr "") with
                   | Err _ => v = VStr ""
                   | Ok text => v = text
                   end
               end
           end
       end).
Proof.
  unfold VoskEngine.process_audio, bind, gets, try_except, VoskEngine.recognizer_call,
    call, logger, ret, Exception.
  destruct (VoskEngine.recognizer e) as [r|] eqn:Hr; cbn.
  2:{ do 3 eexists. split; [reflexivity|]. split; [done|]. intros r Hr'. discriminate. }
  rewrite Hr. cbn.
  destruct (AcceptWaveform (VoskEngine.decoder r) audio_bytes) as [d1 [[|]|x]] eqn:Ha; cbn.
  - destruct (Result d1) as [d2 [doc|x]] eqn:Hres; cbn.
    + destruct (json_loads doc) as [res|x] eqn:Hj; cbn.
      * destruct (dict_get res "text" (VStr "")) as [text|x] eqn:Hg; cbn.
        -- destruct (truthy text); cbn;
             (do 3 eexists; split; [reflexivity|]; split; [done|];
              intros r' [= <-]; rewrite Ha, Hres, Hj, Hg; reflexivity).
        -- do 3 eexists. split; [reflexivity|]. split; [done|].
           intros r' [= <-]. rewrite Ha, Hres, Hj, Hg. reflexivity.
      * do 3 eexists. split; [reflexivity|]. split; [done|].
        intros r' [= <-]. rewrite Ha, Hres, Hj. reflexivity.
    + do 3 eexists. split; [reflexivity|]. split; [done|].
      intros r' [= <-]. rewrite Ha, Hres. reflexivity.
  - do 3 eexists. split; [reflexivity|]. split; [done|].
    intros r' [= <-]. rewrite Ha. reflexivity.
  - do 3 eexists. split; [reflexivity|]. split; [done|].
    intros r' [= <-]. rewrite Ha. reflexivity.
Qed.


End Engine.

(** A state in which [process_audio] gives a text: the toy decoder has
    accepted [ab] and the empty block ends the utterance. *)
Lemma process_audio_total_witness :
  out_of (VoskEngine.process_audio [] (Toy.engine "ab")) = Return (VStr "ab").
Proof.
  destruct (process_audio_total (Toy.engine "ab") [])
    as (v & e1 & tr & Hrun & _ & Hsome).
  rewrite Hrun.
  specialize (Hsome _ eq_refl). cbn in Hsome. rewrite Hsome. reflexivity.
Defined.


(* ===================================================================== *)
(** * Session boundaries                                                 *)
(* ===================================================================== *)

(** C4.  A session whose transcript cannot be flushed ends with a
    release on which [finalize] fails: nothing is enqueued and the
    engine still holds the recognizer it was built with, transcript
    included.  The text the next session produces starts with that
    transcript. *)
Theorem failed_finalize_leaks_into_next_session :
  let c0 := Toy.started "ctrl+alt" in
  let session1 :=
    [Controller._on_hotkey_press;
     Controller.audio_block (Toy.frame "?a") None;
     Controller.worker_iteration;
     Controller._on_hotkey_release] in
  let session2 :=
    [Controller._on_hotkey_press;
     Controller.audio_block (Toy.frame "b") None;
     Controller.worker_iteration;
     Controller.audio_block [] None;
     Controller.worker_iteration] in
  let c1 := state_of (Toy.steps session1 c0) in
  let c2 := state_of (Toy.steps (session1 ++ session2) c0) in
  (VoskEngine.recognizer <$> Controller.engine c0) = Some (Some (Toy.recognizer 0 "")) ∧
  (VoskEngine.recognizer <$> Controller.engine c1) = Some (Some (Toy.recognizer 0 "?a")) ∧
  Controller.is_recording c1 = false ∧
  Queue.queue (Controller.text_queue c1) = [] ∧
  Queue.queue (Controller.text_queue c2) = [VStr "?ab"].
Proof. repeat split; vm_compute; reflexivity. Qed.

(** A block still in the frame queue at the release is decoded after the
    reset, by the new recognizer, and its text comes out in the next
    session. *)
Lemma queued_block_crosses_sessions :
  let c0 := Toy.started "ctrl+alt" in
  let session1 :=
    [Controller._on_hotkey_press;
     Controller.audio_block (Toy.frame "a") None;
     Controller._on_hotkey_release;
     Controller.worker_iteration] in
  let session2 :=
    [Controller._on_hotkey_press;
     Controller.audio_block (Toy.frame "b") None;
     Controller.worker_iteration;
     Controller.audio_block [] None;
     Controller.worker_iteration] in
  let c1 := state_of (Toy.steps session1 c0) in
  let c2 := state_of (Toy.steps (session1 ++ session2) c0) in
  (VoskEngine.recognizer <$> Controller.engine c1) = Some (Some (Toy.recognizer 1 "a")) ∧
  Queue.queue (Controller.text_queue c2) = [VStr "ab"].
Proof. repeat split; vm_compute; reflexivity. Qed.

(* ===================================================================== *)
(** * The capture callback and the frame queue                           *)
(* ===================================================================== *)

Section FrameSource.
Context `{External}.

(** [_audio_callback], step by step. *)
Lemma audio_callback_run (a : AudioCapture.t) (q : Queue.t bytes)
    (indata : bytes) (frames : Z) (time : Q) (status : option string) :
  AudioCapture._audio_callback indata frames time status (a, q) =
  let tr0 := match status with
             | Some flags => [Log WARNING ("Audio stream status: " +:+ flags)]
             | None => []
             end in
  if AudioCapture.is_recording a then
    if Queue.full q
    then (Return tt, (a, q), tr0 ++ [Log WARNING "Audio queue full, dropping chunk"])
    else (Return tt,
          (a, Queue.mk (Queue.maxsize q) (Queue.queue q ++ [indata])
                (Queue.unfinished_tasks q + 1)),
          tr0 ++ [])
  else (Return tt, (a, q), tr0 ++ []).
Proof.
  unfold AudioCapture._audio_callback, bind, gets, try_except, zoom, Queue.put,
    logger, ret, is_class.
  destruct status; cbn; destruct (AudioCapture.is_recording a); cbn;
    try reflexivity; destruct (Queue.full q); cbn; reflexivity.
Qed.

Lemma full_room (q : Queue.t bytes) :
  0 < Queue.maxsize q →
  Queue.full q = true ↔ (Z.to_nat (Queue.maxsize q) - length (Queue.queue q))%nat = 0%nat.
Proof.
  intros Hmax. unfold Queue.full, Queue.qsize.
  rewrite andb_true_iff, Z.ltb_lt, Z.leb_le. lia.
Qed.

Lemma drops_app (t1 t2 : trace) :
  Scenario.drops (t1 ++ t2) = (Scenario.drops t1 + Scenario.drops t2)%nat.
Proof. unfold Scenario.drops. by rewrite List.filter_app, length_app. Qed.

Lemma drops_status (status : option string) :
  Scenario.drops
    (match status with
     | Some flags => [Log WARNING ("Audio stream status: " +:+ flags)]
     | None => []
     end) = 0%nat.
Proof. destruct status; reflexivity. Qed.

(** Blocks delivered while recording, with no consumer: the queue takes
    the first ones up to its capacity in their order, and every later
    one is a drop event. *)
Lemma deliver_run (a : AudioCapture.t) (blocks : list (bytes * option string)) :
  AudioCapture.is_recording a = true →
  ∀ q : Queue.t bytes, 0 < Queue.maxsize q →
    let room := (Z.to_nat (Queue.maxsize q) - length (Queue.queue q))%nat in
    ∃ q1 tr,
      Scenario.deliver blocks (a, q) = (Return tt, (a, q1), tr) ∧
      Queue.maxsize q1 = Queue.maxsize q ∧
      Queue.queue q1 = Queue.queue q ++ firstn room (map fst blocks) ∧
      Scenario.drops tr = (length blocks - room)%nat.
Proof.
  intros Hrec. induction blocks as [|[b st] bs IH]; intros q Hmax room.
  - exists q, []. cbn. rewrite firstn_nil, app_nil_r. repeat split; lia.
  - unfold Scenario.deliver. cbn [for_each]. unfold bind.
    rewrite audio_callback_run. cbn zeta. rewrite Hrec. cbn [fst snd].
    destruct (Queue.full q) eqn:Hfull.
    + pose proof (proj1 (full_room q Hmax) Hfull) as Hroom.
      destruct (IH q Hmax) as (q1 & tr & Hrun & Hm & Hq & Hd).
      unfold Scenario.deliver in Hrun. rewrite Hrun. cbn [fst snd].
      eexists _, _. split; [reflexivity|].
      split; [assumption|]. split.
      * rewrite Hq. subst room. rewrite Hroom. reflexivity.
      * rewrite !drops_app, drops_status, Hd. subst room. rewrite Hroom.
        cbn. lia.
    + assert (room ≠ 0%nat) as Hroom.
      { subst room. intros Hz. apply (full_room q Hmax) in Hz. congruence. }
      set (q0 := Queue.mk (Queue.maxsize q) (Queue.queue q ++ [b])
                   (Queue.unfinished_tasks q + 1)).
      destruct (IH q0 Hmax) as (q1 & tr & Hrun & Hm & Hq & Hd).
      unfold Scenario.deliver in Hrun. rewrite Hrun. cbn [fst snd].
      eexists _, _. split; [reflexivity|].
      split; [assumption|].
      subst q0. cbn in Hq, Hd. rewrite length_app in Hq, Hd. cbn in Hq, Hd.
      split.
      * rewrite Hq. subst room.
        destruct (Z.to_nat (Queue.maxsize q) - length (Queue.queue q))%nat
          as [|n] eqn:Hn; [done|].
        cbn. rewrite <- app_assoc. cbn. do 3 f_equal. lia.
      * rewrite !drops_app, drops_status, Hd. subst room. cbn. lia.
Qed.

Lemma keeps_bind {St A B C} (f : St → C) (m : Py St A) (k : A → Py St B) :
  keeps f m → (∀ a, keeps f (k a)) → keeps f (bind m k).
Proof.
  intros Hm Hk s. unfold bind, state_of. specialize (Hm s). unfold state_of in Hm.
  destruct (m s) as [[[a|e|] s1] t1]; cbn in *; try assumption.
  specialize (Hk a s1). unfold state_of in Hk.
  destruct (k a s1) as [[o s2] t2]. cbn in *. congruence.
Qed.

Lemma keeps_try {St A C} (f : St → C) (body : Py St A) catches (handler : exn → Py St A) :
  keeps f body → (∀ e, keeps f (handler e)) → keeps f (try_except body catches handler).
Proof.
  intros Hm Hk s. unfold try_except, state_of. specialize (Hm s). unfold state_of in Hm.
  destruct (body s) as [[[a|e|] s1] t1]; cbn in *; try assumption.
  destruct (catches e); cbn; [|assumption].
  specialize (Hk e s1). unfold state_of in Hk.
  destruct (handler e s1) as [[o s2] t2]. cbn in *. congruence.
Qed.

Lemma keeps_same {St A C} (f : St → C) (m : Py St A) :
  (∀ s, state_of (m s) = s) → keeps f m.
Proof. intros Hm s. by rewrite Hm. Qed.

Lemma keeps_modify {St C} (f : St → C) (g : St → St) :
  (∀ s, f (g s) = f s) → keeps f (modify g).
Proof. intros Hg s. apply Hg. Qed.

(** The constructors of the components leave the state of their caller
    alone. *)
Lemma audio_init_state {St} (sr ch ms : value) (s : St) :
  state_of (AudioCapture.__init__ sr ch ms s) = s.
Proof.
  unfold AudioCapture.__init__, state_of, bind, call, logger, ret.
  destruct (as_int sr); cbn; [|reflexivity].
  destruct (as_int ms); reflexivity.
Qed.

Lemma construct_state {St T} (blank : T) (init : Py T unit) (s : St) :
  state_of (construct blank init s) = s.
Proof. unfold construct, state_of. destruct (init blank) as [[o t] tr]. reflexivity. Qed.

Lemma engine_init_state {St} (path sr : value) (s : St) :
  state_of (VoskEngine.__init__ path sr s) = s.
Proof.
  unfold VoskEngine.__init__, VoskEngine._resolve_model_path, bind, construct, state_of.
  destruct path; try reflexivity.
  destruct (exists_ _); cbn.
  - destruct (VoskEngine._load_model _) as [[o e] t]. reflexivity.
  - destruct (exists_ _); cbn; [|reflexivity].
    destruct (VoskEngine._load_model _) as [[o e] t]. reflexivity.
Qed.

Lemma hook_init_state {St} (hotkey : value) (s : St) :
  state_of (InputHook.__init__ hotkey s) = s.
Proof. apply construct_state. Qed.

(** [_initialize_components] assigns the three components and nothing
    else. *)
Lemma initialize_components_keeps {C} (f : Controller.t → C) :
  (∀ a c, f (Controller.set_audio_service a c) = f c) →
  (∀ e c, f (Controller.set_engine e c) = f c) →
  (∀ h c, f (Controller.set_input_hook h c) = f c) →
  keeps f Controller._initialize_components.
Proof.
  intros Ha He Hh. unfold Controller._initialize_components.
  apply keeps_try.
  - apply keeps_bind; [by apply keeps_same|]. intros cfg.
    apply keeps_bind; [apply keeps_same, audio_init_state|]. intros a.
    apply keeps_bind; [by apply keeps_modify|]. intros _.
    apply keeps_bind; [apply keeps_same, engine_init_state|]. intros e.
    apply keeps_bind; [by apply keeps_modify|]. intros _.
    apply keeps_bind; [apply keeps_same, hook_init_state|]. intros h.
    apply keeps_bind; [by apply keeps_modify|]. intros _.
    by apply keeps_same.
  - intros e. apply keeps_bind; [by apply keeps_same|]. intros _. by apply keeps_same.
Qed.

(** The controller's two queues are the ones [__init__] creates: the
    frame queue has capacity 1000, the text queue 100. *)
Lemma controller_queues (cfg : value) (c : Controller.t) :
  out_of (Controller.__init__ cfg tt) = Return c →
  Controller.audio_queue c = Queue.new 1000 ∧ Controller.text_queue c = Queue.new 100.
Proof.
  unfold Controller.__init__, construct, out_of.
  match goal with |- context [Controller._initialize_components ?b] =>
    pose proof (initialize_components_keeps Controller.audio_queue
                  ltac:(done) ltac:(done) ltac:(done) b) as Ha;
    pose proof (initialize_components_keeps Controller.text_queue
                  ltac:(done) ltac:(done) ltac:(done) b) as Ht;
    destruct (Controller._initialize_components b) as [[[u|e|] c1] tr] end;
    cbn; intros [= <-]. unfold state_of in *. cbn in *. done.
Qed.

End FrameSource.

(** C5.  The capture callback always returns, without raising and
    without suspending its caller; it changes the frame queue only while
    the service is recording; on a full queue it leaves the queue as it
    is and records one drop warning, and otherwise it appends the block.
    So [Cf + 5] blocks delivered to an empty queue of capacity [Cf] that
    nothing drains leave the first [Cf] of them, in their order, and five
    drop events.  The controller's frame queue has capacity 1000. *)
Theorem frame_queue_overflow `{External} (a : AudioCapture.t) :
  (∀ q indata frames time status,
     ∃ q1 tr,
       AudioCapture._audio_callback indata frames time status (a, q)
         = (Return tt, (a, q1), tr) ∧
       (AudioCapture.is_recording a = false → q1 = q) ∧
       (AudioCapture.is_recording a = true → Queue.full q = true →
          q1 = q ∧ Scenario.drops tr = 1%nat) ∧
       (AudioCapture.is_recording a = true → Queue.full q = false →
          Queue.queue q1 = Queue.queue q ++ [indata] ∧ Scenario.drops tr = 0%nat)) ∧
  (∀ Cf blocks,
     0 < Cf → length blocks = (Z.to_nat Cf + 5)%nat →
     AudioCapture.is_recording a = true →
     ∃ q1 tr,
       Scenario.deliver blocks (a, Queue.new Cf) = (Return tt, (a, q1), tr) ∧
       Queue.queue q1 = firstn (Z.to_nat Cf) (map fst blocks) ∧
       length (Queue.queue q1) = Z.to_nat Cf ∧
       Scenario.drops tr = 5%nat) ∧
  (∀ cfg c, out_of (Controller.__init__ cfg tt) = Return c →
     Controller.audio_queue c = Queue.new 1000).
Proof.
  split; [|split].
  - intros q indata frames time status. rewrite audio_callback_run. cbn zeta.
    destruct (AudioCapture.is_recording a); [destruct (Queue.full q)|];
      eexists _, _; (split; [reflexivity|]);
      (split; [intros; try discriminate; reflexivity|]);
      (split; [intros Hr Hf; try discriminate|intros Hr Hf; try discriminate]);
      (split; [reflexivity|]); rewrite drops_app, drops_status; reflexivity.
  - intros Cf blocks HCf Hlen Hrec.
    destruct (deliver_run a blocks Hrec (Queue.new Cf) HCf) as (q1 & tr & Hrun & _ & Hq & Hd).
    cbn in Hq, Hd. rewrite Nat.sub_0_r in Hq, Hd.
    exists q1, tr. split; [assumption|]. split; [assumption|]. split.
    + rewrite Hq, length_take, length_map. lia.
    + rewrite Hd. lia.
  - intros cfg c Hc. apply (controller_queues cfg c Hc).
Qed.

(** Seven blocks into a queue of capacity two. *)
Lemma frame_queue_overflow_witness :
  ∃ q1 tr,
    Scenario.deliver
      (map (fun s => (Toy.frame s, None)) ["a"; "b"; "c"; "d"; "e"; "f"; "g"])
      (Toy.capturing, Queue.new 2)
    = (Return tt, (Toy.capturing, q1), tr) ∧
    Queue.queue q1 = [Toy.frame "a"; Toy.frame "b"] ∧
    Scenario.drops tr = 5%nat.
Proof.
  destruct (proj1 (proj2 (frame_queue_overflow Toy.capturing)) 2
              (map (fun s => (Toy.frame s, None)) ["a"; "b"; "c"; "d"; "e"; "f"; "g"])
              ltac:(lia) ltac:(reflexivity) ltac:(reflexivity))
    as (q1 & tr & Hrun & Hq & _ & Hd).
  exists q1, tr. split; [exact Hrun|]. split; [exact Hq|exact Hd].
Defined.

(* ===================================================================== *)
(** * The output queue and shutdown                                      *)
(* ===================================================================== *)

Section Shutdown.
Context `{External}.



(** Stopping the capture and stopping the hook return whatever the
    libraries do, and wait for nothing. *)
Lemma audio_stop_total (a : AudioCapture.t) :
  ∃ a1 t1, AudioCapture.stop a = (Return tt, a1, t1) ∧ waited t1 = 0%Q.
Proof.
  unfold AudioCapture.stop, bind, gets, try_except, modify, call, logger, Exception.
  destruct (AudioCapture.stream a) as [st|]; cbn.
  - destruct (InputStream_stop st); cbn; [destruct (InputStream_close st); cbn|];
      eexists _, _; split; reflexivity.
  - eexists _, _; split; reflexivity.
Qed.

Lemma hook_stop_total (h : InputHook.t) :
  ∃ h1 t1, InputHook.stop h = (Return tt, h1, t1) ∧ waited t1 = 0%Q.
Proof.
  unfold InputHook.stop, bind, gets, try_except, modify, call, logger, Exception.
  destruct (InputHook.listener h) as [l|]; cbn.
  - destruct (Listener_stop l); cbn; eexists _, _; split; reflexivity.
  - eexists _, _; split; reflexivity.
Qed.

Lemma waited_app (t1 t2 : trace) : (waited (t1 ++ t2) == waited t1 + waited t2)%Q.
Proof.
  induction t1 as [|e t1 IH].
  - unfold waited; cbn [fold_right app]. lra.
  - destruct e; unfold waited in *; cbn [fold_right app] in *.
    + exact IH.
    + rewrite IH. lra.
Qed.

Lemma join_wait_bound (worker_exit : option Q) :
  (Scenario.join_wait worker_exit <= Scenario.grace_period)%Q.
Proof.
  unfold Scenario.join_wait, Scenario.grace_period.
  destruct worker_exit as [d|]; [|lra].
  destruct (Qle_bool d (5 # 1)) eqn:Hd; [|lra]. by apply Qle_bool_iff.
Qed.

Lemma stop_run (c : Controller.t) (a : AudioCapture.t) (worker_exit : option Q) :
  Controller.audio_service c = Some a →
  Controller.worker_thread c = Some (Thread.mk true) →
  ∃ c1,
    Controller.stop worker_exit c =
      (Return tt, c1,
       Scenario.stop_prefix (Controller.is_recording c) a (Controller.input_hook c)
       ++ [Wait (Scenario.join_wait worker_exit); Log INFO "Controller stopped"]) ∧
    Controller.stop_event c1 = true ∧
    Controller.audio_queue c1 = Controller.audio_queue c ∧
    Controller.text_queue c1 = Controller.text_queue c ∧
    Controller.worker_thread c1 = Some (Thread.mk (negb (Scenario.joined worker_exit))).
Proof.
  intros Ha Hw. destruct c as [cfg aq tq asv en hk wt se rec]. cbn in Ha, Hw. subst.
  destruct (audio_stop_total a) as (a1 & ta & Hra & _).
  assert (∀ h, ∃ h1 th, InputHook.stop h = (Return tt, h1, th)) as Hhook.
  { intros h. destruct (hook_stop_total h) as (h1 & th & Hrh & _). eauto. }
  unfold Controller.stop, Scenario.stop_prefix, bind, gets, modify, logger, on_field, ret,
    Thread.join, wait, trace_of.
  destruct rec; [|clear Hra];
    (destruct hk as [h|]; [destruct (Hhook h) as (h1 & th & Hrh)|]);
    (destruct worker_exit as [d|]; [destruct (Qle_bool d (5 # 1)) eqn:Hd|]);
    repeat (cbn -[AudioCapture.stop InputHook.stop Qle_bool];
            rewrite ?Hra, ?Hrh, ?Hd);
    (eexists; split; [rewrite <- ?app_assoc, ?app_nil_r; reflexivity|]);
    repeat split.
Qed.

(** Once the stop event is set the consumer leaves its loop at the next
    test of the flag, without taking a block from the queue, however
    many are left in it. *)
Lemma worker_loop_stops (c : Controller.t) (fuel : nat) :
  Controller.stop_event c = true →
  Controller._worker_loop (S fuel) c =
    (Return tt, c, [Log INFO "Worker thread started"; Log INFO "Worker thread stopped"]).
Proof.
  intros Hstop. unfold Controller._worker_loop, bind, logger. cbn [Controller.worker_while].
  unfold bind, gets, ret. rewrite Hstop. reflexivity.
Qed.

Lemma stop_prefix_waited (recording : bool) (a : AudioCapture.t) (h : option InputHook.t) :
  (waited (Scenario.stop_prefix recording a h) == 0)%Q.
Proof.
  unfold Scenario.stop_prefix. rewrite !waited_app.
  destruct recording; [destruct (audio_stop_total a) as (a1 & t1 & -> & Hw1)|];
    (destruct h as [h|]; [destruct (hook_stop_total h) as (h1 & t2 & -> & Hw2)|]);
    unfold trace_of; cbn [snd]; rewrite ?Hw1, ?Hw2;
    unfold waited; cbn [fold_right]; lra.
Qed.

(** C6 (amended).  [stop()] returns for every backlog and every
    behaviour of the worker: it sets the stop event, leaves the frame
    queue as it is, and waits for the worker only in [join], for the
    time the worker needs or for five seconds, whichever is shorter; that
    is within the poll interval plus the grace period and does not
    depend on the backlog.  A worker that sees the event leaves its loop
    without dequeuing.  Whether or not the worker has returned, what
    [stop()] logs after the join is the INFO record [Controller stopped]
    and nothing else: the join adds no warning. *)
Theorem stop_is_bounded (c : Controller.t) (a : AudioCapture.t) (worker_exit : option Q) :
  Controller.audio_service c = Some a →
  Controller.worker_thread c = Some (Thread.mk true) →
  let pre := Scenario.stop_prefix (Controller.is_recording c) a (Controller.input_hook c) in
  ∃ c1,
    Controller.stop worker_exit c =
      (Return tt, c1,
       pre ++ [Wait (Scenario.join_wait worker_exit); Log INFO "Controller stopped"]) ∧
    Controller.stop_event c1 = true ∧
    Controller.audio_queue c1 = Controller.audio_queue c ∧
    Controller.worker_thread c1 = Some (Thread.mk (negb (Scenario.joined worker_exit))) ∧
    (waited (trace_of (Controller.stop worker_exit c))
       == Scenario.join_wait worker_exit)%Q ∧
    (Scenario.join_wait worker_exit
       <= Scenario.poll_interval + Scenario.grace_period)%Q ∧
    (∀ backlog,
       trace_of (Controller.stop worker_exit (Controller.set_audio_queue backlog c))
       = trace_of (Controller.stop worker_exit c)) ∧
    warnings (trace_of (Controller.stop worker_exit c)) = warnings pre ∧
    (∀ fuel,
       Controller._worker_loop (S fuel) c1 =
         (Return tt, c1,
          [Log INFO "Worker thread started"; Log INFO "Worker thread stopped"])).
Proof.
  intros Ha Hw pre.
  destruct (stop_run c a worker_exit Ha Hw) as (c1 & Hrun & Hstop & Hq & _ & Hth).
  exists c1. rewrite Hrun. unfold trace_of. cbn [snd].
  split; [reflexivity|]. split; [assumption|]. split; [assumption|].
  split; [assumption|]. split; [|split; [|split; [|split]]].
  - rewrite waited_app. fold pre. subst pre. rewrite stop_prefix_waited.
    unfold waited; cbn [fold_right]. lra.
  - pose proof (join_wait_bound worker_exit) as Hb.
    unfold Scenario.poll_interval, Scenario.grace_period in *. lra.
  - intros backlog.
    destruct (stop_run (Controller.set_audio_queue backlog c) a worker_exit)
      as (c2 & Hrun2 & _); [by destruct c|by destruct c|].
    rewrite Hrun2. destruct c; reflexivity.
  - unfold warnings. rewrite List.filter_app. cbn. apply app_nil_r.
  - intros fuel. apply worker_loop_stops, Hstop.
Qed.

End Shutdown.



(** C6, as the document states it, fails: the worker of a started
    controller never returns, [stop()] waits the five seconds of the
    join and proceeds with the worker still alive, and what it has
    logged holds no warning. *)
Lemma stop_logs_no_warning :
  let r := Controller.stop None (Toy.started "ctrl+alt") in
  out_of r = Return tt ∧
  Controller.worker_thread (state_of r) = Some (Thread.mk true) ∧
  trace_of r = [Log INFO "Stopping GhostType controller...";
                Log INFO "Input hook stopped";
                Wait (5 # 1);
                Log INFO "Controller stopped"] ∧
  warnings (trace_of r) = [].
Proof. repeat split; vm_compute; reflexivity. Qed.

(** The worker of a started controller needs two seconds to return. *)
Lemma stop_is_bounded_witness :
  ∃ c1,
    out_of (Controller.stop (Some (2 # 1)%Q) (Toy.started "ctrl+alt")) = Return tt ∧
    state_of (Controller.stop (Some (2 # 1)%Q) (Toy.started "ctrl+alt")) = c1 ∧
    Controller.stop_event c1 = true ∧
    Controller.worker_thread c1 = Some (Thread.mk false).
Proof.
  destruct (stop_is_bounded (Toy.started "ctrl+alt") Toy.capturing_off (Some (2 # 1)%Q)
              ltac:(reflexivity) ltac:(reflexivity))
    as (c1 & Hrun & Hstop & _ & Hth & _).
  exists c1. rewrite Hrun. repeat split; assumption.
Defined.

(* ===================================================================== *)
(** * Start-up                                                           *)
(* ===================================================================== *)

Section Startup.
Context `{External}.










End Startup.



(* ===================================================================== *)
(** * The configuration                                                  *)
(* ===================================================================== *)

Lemma split_nonempty (sep : ascii) (s : string) : split sep s ≠ [].
Proof.
  destruct s as [|c s]; cbn; [done|].
  destruct (Ascii.eqb c sep); [done|]. destruct (split sep s); done.
Qed.

Lemma assoc_store (k : string) (v : value) (d : list (string * value)) :
  assoc k (Config.store k v d) = Some v.
Proof.
  induction d as [|[k' v'] d IH]; cbn.
  - by rewrite String.eqb_refl.
  - destruct (String.eqb k k') eqn:Hk; cbn; rewrite ?String.eqb_refl, ?Hk; done.
Qed.

Lemma assoc_store_ne (k k' : string) (v : value) (d : list (string * value)) :
  k ≠ k' → assoc k' (Config.store k v d) = assoc k' d.
Proof.
  intros Hne. induction d as [|[k0 v0] d IH]; cbn.
  - destruct (String.eqb k' k) eqn:Hk; [|done].
    apply String.eqb_eq in Hk. congruence.
  - destruct (String.eqb k k0) eqn:Hk; cbn.
    + apply String.eqb_eq in Hk. subst k0.
      destruct (String.eqb k' k) eqn:Hk'; [|done].
      apply String.eqb_eq in Hk'. congruence.
    + destruct (String.eqb k' k0); [done|exact IH].
Qed.

Lemma assign_dict (k : string) (rest : list string) (v cfg cfg1 : value) :
  Config.assign k rest v cfg = Ok cfg1 → ∃ d, cfg1 = VDict d.
Proof.
  destruct rest as [|k' rest]; destruct cfg; cbn; try discriminate.
  - intros [= <-]; eauto.
  - match goal with |- context [Config.assign k' rest v ?c] =>
      destruct (Config.assign k' rest v c) end; [intros [= <-]; eauto|discriminate].
Qed.

Lemma walk_assign (k : string) (rest : list string) (v cfg cfg1 default : value) :
  Config.assign k rest v cfg = Ok cfg1 →
  v ≠ VNone →
  Config.walk (k :: rest) cfg1 default = v.
Proof.
  revert k cfg cfg1. induction rest as [|k' rest IH]; intros k cfg cfg1 Hset Hv.
  - destruct cfg; cbn in Hset; try discriminate. injection Hset as <-.
    cbn. rewrite assoc_store. destruct v; done.
  - destruct cfg; cbn in Hset; try discriminate.
    match type of Hset with context [Config.assign k' rest v ?c] =>
      destruct (Config.assign k' rest v c) as [child|e] eqn:Hchild end; [|discriminate].
    injection Hset as <-.
    destruct (assign_dict _ _ _ _ _ Hchild) as (d' & ->).
    cbn [Config.walk]. rewrite assoc_store.
    apply (IH k' _ _ Hchild Hv).
Qed.

(** X1.  A value other than [None] that [Config.set] has stored under a
    dotted key is what [Config.get] returns for that key, whatever the
    default; the dictionaries missing on the way are created. *)
Theorem config_get_set (cfg cfg1 : value) (key : string) (v default : value) :
  Config.set cfg key v = Ok cfg1 →
  v ≠ VNone →
  Config.get cfg1 key default = v.
Proof.
  unfold Config.set, Config.get. intros Hset Hv.
  destruct (split "." key) as [|k rest] eqn:Hsplit.
  - by apply split_nonempty in Hsplit.
  - by apply (walk_assign k rest v cfg).
Qed.

Lemma config_get_set_witness :
  Config.get
    (VDict [("audio", VDict [("sample_rate", VInt 48000)])])
    "audio.sample_rate" (VInt 16000)
  = VInt 48000.
Proof.
  apply (config_get_set (VDict []) _ "audio.sample_rate" (VInt 48000) (VInt 16000)).
  - reflexivity.
  - discriminate.
Defined.

(** X2.  [Config.get] gives the default when the configuration is no
    dictionary, when the first part of the key is missing from it, and
    when the value stored under the key is [None]: a stored [None] cannot
    be told from a missing key. *)
Theorem config_get_default (cfg : value) (key : string) (default : value) :
  (match cfg with VDict _ => False | _ => True end →
   Config.get cfg key default = default) ∧
  (∀ d k rest, cfg = VDict d → split "." key = k :: rest → assoc k d = None →
     Config.get cfg key default = default) ∧
  (∀ cfg1, Config.set cfg key VNone = Ok cfg1 →
     Config.get cfg1 key default = default).
Proof.
  unfold Config.get, Config.set. split; [|split].
  - intros Hnd. destruct (split "." key) as [|k rest] eqn:Hs.
    + by apply split_nonempty in Hs.
    + destruct cfg; done.
  - intros d k rest -> -> Hnone. cbn. by rewrite Hnone.
  - intros cfg1. destruct (split "." key) as [|k rest] eqn:Hs.
    { by apply split_nonempty in Hs. }
    clear Hs. revert k cfg cfg1.
    induction rest as [|k' rest IH]; intros k cfg cfg1 Hset.
    + destruct cfg; cbn in Hset; try discriminate. injection Hset as <-.
      cbn. by rewrite assoc_store.
    + destruct cfg; cbn in Hset; try discriminate.
      match type of Hset with context [Config.assign k' rest VNone ?c] =>
        destruct (Config.assign k' rest VNone c) as [child|e] eqn:Hchild end;
        [|discriminate].
      injection Hset as <-.
      destruct (assign_dict _ _ _ _ _ Hchild) as (d' & ->).
      cbn [Config.walk]. rewrite assoc_store. apply (IH k' _ _ Hchild).
Qed.

Lemma config_get_default_witness :
  Config.get (VInt 3) "audio.sample_rate" (VInt 16000) = VInt 16000 ∧
  Config.get (VDict [("hotkeys", VDict [])]) "audio.sample_rate" (VInt 16000) = VInt 16000 ∧
  Config.get (VDict [("audio", VDict [("sample_rate", VNone)])])
    "audio.sample_rate" (VInt 16000) = VInt 16000.
Proof.
  split; [|split].
  - apply (proj1 (config_get_default (VInt 3) "audio.sample_rate" (VInt 16000))). exact I.
  - apply (proj1 (proj2 (config_get_default (VDict [("hotkeys", VDict [])])
                          "audio.sample_rate" (VInt 16000)))
             [("hotkeys", VDict [])] "audio" ["sample_rate"]); reflexivity.
  - apply (proj2 (proj2 (config_get_default (VDict []) "audio.sample_rate" (VInt 16000)))).
    reflexivity.
Defined.

(* ===================================================================== *)
(** * The hook: parsing and key tracking                                 *)
(* ===================================================================== *)

Section Hook.
Context `{External}.

Lemma parse_part_keys {St} (keys : gset key) (part : string) (s : St) :
  ∃ keys1 tr,
    InputHook.parse_part keys part s = (Return keys1, s, tr) ∧
    ∀ k, k ∈ keys1 ↔ k ∈ keys ∨ k ∈ Scenario.token_keys part.
Proof.
  unfold InputHook.parse_part, Scenario.token_keys.
  destruct (String.eqb (strip part) "ctrl");
    [eexists _, _; split; [reflexivity|set_solver]|].
  destruct (String.eqb (strip part) "alt");
    [eexists _, _; split; [reflexivity|set_solver]|].
  destruct (String.eqb (strip part) "shift");
    [eexists _, _; split; [reflexivity|set_solver]|].
  unfold try_except, bind, call, ret, logger, Exception.
  destruct (from_char (strip part)); eexists _, _; (split; [reflexivity|set_solver]).
Qed.

Lemma parse_parts_keys {St} (parts : list string) (keys : gset key) (s : St) :
  ∃ keys1 tr,
    for_each parts InputHook.parse_part keys s = (Return keys1, s, tr) ∧
    ∀ k, k ∈ keys1 ↔
         k ∈ keys ∨ ∃ part, part ∈ parts ∧ k ∈ Scenario.token_keys part.
Proof.
  revert keys. induction parts as [|p ps IH]; intros keys.
  - eexists _, _. split; [reflexivity|]. intros k. split; [auto|].
    intros [Hk|(part & Hin & _)]; [done|]. by apply elem_of_nil in Hin.
  - cbn [for_each]. unfold bind.
    destruct (parse_part_keys keys p s) as (k1 & t1 & -> & Hk1).
    destruct (IH k1) as (k2 & t2 & -> & Hk2).
    eexists _, _. split; [reflexivity|]. intros k. rewrite Hk2, Hk1. split.
    + intros [[Hk|Hk]|(part & Hin & Hk)]; [by left| |].
      * right. exists p. split; [apply list_elem_of_here|done].
      * right. exists part. split; [by apply list_elem_of_further|done].
    + intros [Hk|(part & Hin & Hk)]; [by left; left|].
      apply elem_of_cons in Hin as [->|Hin]; [by left; right|].
      right. by exists part.
Qed.

(** X3.  Parsing a chord string returns, leaves its caller's state
    alone, and gives exactly the keys its tokens stand for: a key is in
    the set iff it belongs to some token of the lower-cased string split
    at the plus signs.  So neither the order of the tokens, nor their
    repetition, nor their case, nor blanks around them matter. *)
Theorem parse_hotkey_keys {St} (hotkey : string) (s : St) :
  ∃ keys tr,
    InputHook._parse_hotkey (VStr hotkey) s = (Return keys, s, tr) ∧
    ∀ k, k ∈ keys ↔
         ∃ part, part ∈ split "+" (lower hotkey) ∧ k ∈ Scenario.token_keys part.
Proof.
  destruct (parse_parts_keys (split "+" (lower hotkey)) ∅ s) as (keys & tr & Hrun & Hk).
  exists keys, tr. split; [exact Hrun|]. intros k. rewrite Hk. set_solver.
Qed.

End Hook.

Section Handlers.
Context `{External}.


End Handlers.


Section HookLifecycle.
Context `{External}.

(** X5.  A hook has at most one listener: when [start()] returns the
    listener is set, and a further [start()] changes nothing and only
    logs a warning.  A listener that was created but failed to start is
    kept as well: [start()] raises, and a later [start()] does not try
    again. *)
Theorem hook_start_once (h : InputHook.t) :
  (∀ h1 tr, InputHook.start h = (Return tt, h1, tr) →
     is_Some (InputHook.listener h1) ∧
     InputHook.start h1 = (Return tt, h1, [Log WARNING "Listener already running"])) ∧
  (∀ l e, InputHook.listener h = None → Listener_new = Ok l → Listener_start l = Err e →
     let h1 := InputHook.set_listener (Some l) h in
     InputHook.start h =
       (Raise e, h1, [Log ERROR ("Failed to start input hook: " +:+ exn_msg e)]) ∧
     InputHook.start h1 = (Return tt, h1, [Log WARNING "Listener already running"])).
Proof.
  assert (∀ h1, is_Some (InputHook.listener h1) →
            InputHook.start h1 = (Return tt, h1, [Log WARNING "Listener already running"]))
    as Hagain.
  { intros h1 [l Hl]. unfold InputHook.start, bind, gets. rewrite Hl. reflexivity. }
  split.
  - intros h1 tr Hrun.
    assert (is_Some (InputHook.listener h1)) as Hsome.
    { revert Hrun. unfold InputHook.start, bind, gets, try_except, call, modify, logger,
        reraise, Exception.
      destruct (InputHook.listener h) as [l|] eqn:Hl; cbn.
      - intros [= <- _]. rewrite Hl. eauto.
      - destruct Listener_new as [l|e]; cbn; [|discriminate].
        destruct (Listener_start l) as [[]|e]; cbn; [|discriminate].
        intros [= <- _]. cbn. eauto. }
    split; [exact Hsome|apply Hagain, Hsome].
  - intros l e Hnone Hnew Hstart h1. split; [|apply Hagain; subst h1; cbn; eauto].
    unfold InputHook.start, bind, gets, try_except, call, modify, logger, reraise, Exception.
    rewrite Hnone, Hnew. cbn. rewrite Hstart. reflexivity.
Qed.

(** X6.  [stop()] on a hook never raises.  Without a listener it only
    logs a warning; when the listener stops, the listener and the pressed
    keys are cleared and the chord is kept; when stopping the listener
    raises, the error is logged and the hook stays as it was, listener
    and pressed keys included. *)
Theorem hook_stop_clears (h : InputHook.t) :
  (InputHook.listener h = None →
     InputHook.stop h = (Return tt, h, [Log WARNING "No listener to stop"])) ∧
  (∀ l, InputHook.listener h = Some l → Listener_stop l = Ok tt →
     InputHook.stop h =
       (Return tt, InputHook.mk (InputHook.hotkey h) None ∅ (InputHook.hotkey_keys h),
        [Log INFO "Input hook stopped"])) ∧
  (∀ l e, InputHook.listener h = Some l → Listener_stop l = Err e →
     InputHook.stop h =
       (Return tt, h, [Log ERROR ("Error stopping input hook: " +:+ exn_msg e)])).
Proof.
  unfold InputHook.stop, bind, gets, try_except, call, modify, logger, Exception.
  split; [|split].
  - intros ->. reflexivity.
  - intros l -> Hstop. cbn. rewrite Hstop. reflexivity.
  - intros l e -> Hstop. cbn. rewrite Hstop. reflexivity.
Qed.

End HookLifecycle.

Lemma hook_start_once_witness :
  InputHook.start (H := Toy.faulty) (InputHook.mk (H := Toy.faulty) VNone None ∅ ∅)
  = (Raise (Exn LibraryError "no display"), InputHook.mk (H := Toy.faulty) VNone (Some tt) ∅ ∅,
     [Log ERROR "Failed to start input hook: no display"]) ∧
  InputHook.start (H := Toy.faulty) (InputHook.mk (H := Toy.faulty) VNone (Some tt) ∅ ∅)
  = (Return tt, InputHook.mk (H := Toy.faulty) VNone (Some tt) ∅ ∅,
     [Log WARNING "Listener already running"]).
Proof.
  exact (proj2 (hook_start_once (H := Toy.faulty) (InputHook.mk (H := Toy.faulty) VNone None ∅ ∅))
           tt (Exn LibraryError "no display") eq_refl eq_refl eq_refl).
Defined.

Lemma hook_stop_clears_witness :
  InputHook.stop (H := Toy.env) (InputHook.mk (H := Toy.env) VNone (Some tt) {[ctrl_l]} {[ctrl_l; ctrl_r]})
  = (Return tt, InputHook.mk (H := Toy.env) VNone None ∅ {[ctrl_l; ctrl_r]},
     [Log INFO "Input hook stopped"]).
Proof.
  exact (proj1 (proj2 (hook_stop_clears (H := Toy.env)
                         (InputHook.mk (H := Toy.env) VNone (Some tt) {[ctrl_l]} {[ctrl_l; ctrl_r]})))
           tt eq_refl eq_refl).
Defined.

(* ===================================================================== *)
(** * The audio service                                                  *)
(* ===================================================================== *)

Section Capture.
Context `{External}.

(** X7.  A service that is recording has a stream.  [start()] and
    [stop()] keep this, whether they return or raise, and [stop()] on a
    service for which it holds always returns with the service not
    recording. *)
Theorem capture_recording_has_stream (a : AudioCapture.t) :
  (AudioCapture.is_recording a = true → is_Some (AudioCapture.stream a)) →
  let started := state_of (AudioCapture.start a) in
  let stopped := state_of (AudioCapture.stop a) in
  (AudioCapture.is_recording started = true → is_Some (AudioCapture.stream started)) ∧
  (AudioCapture.is_recording stopped = true → is_Some (AudioCapture.stream stopped)) ∧
  out_of (AudioCapture.stop a) = Return tt ∧
  AudioCapture.is_recording stopped = false.
Proof.
  intros Hinv. cbn zeta.
  unfold AudioCapture.start, AudioCapture.stop, state_of, out_of, bind, gets, try_except,
    call, modify, logger, reraise, Exception.
  destruct a as [sr ch ms bs [st|] rec]; cbn in *.
  - destruct (InputStream_stop st) as [[]|e]; cbn;
      [destruct (InputStream_close st) as [[]|e]; cbn|];
      repeat split; intros; eauto; done.
  - assert (rec = false) as ->.
    { destruct rec; [|done]. destruct (Hinv eq_refl) as [? [=]]. }
    split; [|repeat split; intros; done].
    destruct query_devices as [dev|e]; cbn; [|done].
    destruct (subscript dev "name") as [name|e]; cbn; [|done].
    destruct (InputStream_new sr ch bs) as [st|e]; cbn; [|done].
    destruct (InputStream_start st) as [[]|e]; cbn; eauto.
Qed.

(** X8.  A stream that was created but failed to start is kept:
    [start()] logs the error and raises with the service not recording,
    and a later [start()] only logs that the stream is already running
    and returns, still not recording. *)
Theorem capture_failed_start_sticks (a : AudioCapture.t) dev name st e :
  AudioCapture.stream a = None →
  query_devices = Ok dev →
  subscript dev "name" = Ok name →
  InputStream_new (AudioCapture.sample_rate a) (AudioCapture.channels a)
    (AudioCapture.blocksize a) = Ok st →
  InputStream_start st = Err e →
  let a1 := AudioCapture.set_stream (Some st) a in
  AudioCapture.start a =
    (Raise e, a1,
     [Log INFO ("Using audio device: " +:+ str name);
      Log ERROR ("Failed to start audio recording: " +:+ exn_msg e)]) ∧
  AudioCapture.start a1 = (Return tt, a1, [Log WARNING "Audio stream already running"]) ∧
  AudioCapture.is_recording a1 = AudioCapture.is_recording a.
Proof.
  intros Hst Hq Hn Hnew Hstart a1.
  unfold AudioCapture.start, bind, gets, try_except, call, modify, logger, reraise,
    Exception.
  rewrite Hst, Hq. cbn. rewrite Hn. cbn. rewrite Hnew. cbn. rewrite Hstart. cbn.
  repeat split.
Qed.

(** X9.  The constructor of the audio service computes the block size
    from integer settings as the whole number of samples in a chunk,
    rounded down, and builds a service that has no stream and is not
    recording; a setting that is no number makes it raise. *)
Theorem capture_blocksize {St} (sample_rate channels chunk_duration_ms : value) (s : St) :
  (∀ sr ms, sample_rate = VInt sr → chunk_duration_ms = VInt ms → 0 <= sr * ms →
     ∃ a, out_of (AudioCapture.__init__ sample_rate channels chunk_duration_ms s) = Return a ∧
          1000 * AudioCapture.blocksize a <= sr * ms < 1000 * (AudioCapture.blocksize a + 1) ∧
          AudioCapture.stream a = None ∧
          AudioCapture.is_recording a = false) ∧
  ((as_int sample_rate = Err (Exn TypeError "unsupported operand type") ∨
    as_int chunk_duration_ms = Err (Exn TypeError "unsupported operand type")) →
   out_of (AudioCapture.__init__ sample_rate channels chunk_duration_ms s)
   = Raise (Exn TypeError "unsupported operand type")).
Proof.
  unfold AudioCapture.__init__, out_of, bind, call, logger, ret. split.
  - intros sr ms -> -> Hpos. cbn. eexists. split; [reflexivity|]. cbn.
    split; [|done].
    pose proof (Z.quot_rem' (sr * ms) 1000) as Hqr.
    pose proof (Z.rem_bound_pos (sr * ms) 1000 Hpos ltac:(lia)) as Hb. lia.
  - intros [Herr|Herr].
    + rewrite Herr. reflexivity.
    + destruct (as_int sample_rate) as [sr|e] eqn:Hsr; cbn.
      * rewrite Herr. reflexivity.
      * destruct sample_rate; cbn in Hsr; try discriminate; injection Hsr as <-; reflexivity.
Qed.

End Capture.

Lemma capture_recording_has_stream_witness :
  out_of (AudioCapture.stop Toy.capturing) = Return tt ∧
  AudioCapture.is_recording (state_of (AudioCapture.stop Toy.capturing)) = false.
Proof.
  destruct (capture_recording_has_stream Toy.capturing ltac:(cbn; eauto))
    as (_ & _ & Hout & Hrec).
  split; [exact Hout|exact Hrec].
Defined.

Lemma capture_failed_start_sticks_witness :
  out_of (AudioCapture.start (H := Toy.faulty)
            (AudioCapture.mk (H := Toy.faulty) (VInt 16000) (VInt 1) (VInt 100) 1600 None false))
  = Raise (Exn LibraryError "device busy").
Proof.
  destruct (capture_failed_start_sticks (H := Toy.faulty)
              (AudioCapture.mk (H := Toy.faulty) (VInt 16000) (VInt 1) (VInt 100) 1600 None false)
              (VDict [("name", VStr "mic")]) (VStr "mic") tt (Exn LibraryError "device busy")
              eq_refl eq_refl eq_refl eq_refl eq_refl) as (Hrun & _).
  rewrite Hrun. reflexivity.
Defined.

Lemma capture_blocksize_witness :
  ∃ a, out_of (AudioCapture.__init__ (H := Toy.env) (VInt 16000) (VInt 1) (VInt 100) tt)
       = Return a ∧ AudioCapture.blocksize a = 1600.
Proof.
  destruct (proj1 (capture_blocksize (H := Toy.env) (VInt 16000) (VInt 1) (VInt 100) tt)
              16000 100 eq_refl eq_refl ltac:(lia)) as (a & Hout & Hb & _).
  exists a. split; [exact Hout|lia].
Defined.
